(** * Plugwise thermostat client (climate.py): a Rocq model

    The development embeds the device client of [climate.py]: the
    ampersand sanitiser, the retrying transport ([connect], [request]),
    the cached domain snapshot with its throttled refresh, and the
    getters that query the snapshot through ElementTree path
    expressions.  *)

From Stdlib Require Import ZArith Lia Ascii String List Bool.
From Stdlib Require Import Floats.SpecFloat.
From Stdlib Require Import DecimalString.
From stdpp Require Import base option list strings gmap.

Local Open Scope string_scope.
Local Open Scope Z_scope.

Set Warnings "-register-all".

(** ** Python results

    A Python call either returns a value or raises.  Only the exception
    classes that the modelled code can meet are listed. *)

Inductive exn : Type :=
  | KeyError
  | TypeError
  | ValueError
  | SyntaxError
  | AttributeError
  | ParseError
  | UnicodeDecodeError
  | ClientPayloadError.

Inductive result (A : Type) : Type :=
  | Return (a : A)
  | Raise (e : exn).

Arguments Return {A} a.
Arguments Raise {A} e.

Definition rbind {A B : Type} (r : result A) (k : A -> result B) : result B :=
  match r with
  | Return a => k a
  | Raise e => Raise e
  end.

(** ** Strings and the ampersand sanitiser *)

Module Sanitize.

(** [[a-zA-Z#]]: the characters after which an ampersand is taken to
    start an entity. *)
Definition is_entity_start (c : ascii) : bool :=
  let n := nat_of_ascii c in
  ((97 <=? n)%nat && (n <=? 122)%nat)
  || ((65 <=? n)%nat && (n <=? 90)%nat)
  || (n =? 35)%nat.

Definition amp : ascii := "&"%char.

Definition is_amp (c : ascii) : bool := Ascii.eqb c amp.

(** [re.sub(r"&([^a-zA-Z#])", r"&amp;\1", xmldata)]: the scan goes
    left to right; a match takes the ampersand together with the
    character after it, and the scan resumes behind that character. *)
Fixpoint escape_illegal_xml_characters (xmldata : string) : string :=
  match xmldata with
  | EmptyString => EmptyString
  | String c rest =>
      if is_amp c then
        match rest with
        | EmptyString => String c EmptyString
        | String d rest' =>
            if negb (is_entity_start d)
            then "&amp;" ++ String d (escape_illegal_xml_characters rest')
            else String c (escape_illegal_xml_characters rest)
        end
      else String c (escape_illegal_xml_characters rest)
  end.

(** The sanitiser as the specification words it: each ampersand is
    judged on its own by the character that follows it in the input. *)
Definition followed_by_entity_start (rest : string) : bool :=
  match rest with
  | EmptyString => false
  | String d _ => is_entity_start d
  end.

Fixpoint escape_every_ampersand (xmldata : string) : string :=
  match xmldata with
  | EmptyString => EmptyString
  | String c rest =>
      if is_amp c && negb (followed_by_entity_start rest)
      then "&amp;" ++ escape_every_ampersand rest
      else String c (escape_every_ampersand rest)
  end.

(** Every ampersand is followed by a character, and that character is
    not an ampersand. *)
Fixpoint ampersands_separated (xmldata : string) : bool :=
  match xmldata with
  | EmptyString => true
  | String c rest =>
      (if is_amp c
       then match rest with
            | EmptyString => false
            | String d _ => negb (is_amp d)
            end
       else true)
      && ampersands_separated rest
  end.

End Sanitize.

(** ** ElementTree: elements and the path fragment

    [import xml.etree.cElementTree as Etree].  An element carries a tag,
    an attribute dictionary, the text before its first child, the text
    after its end tag and its children in document order. *)

Module Etree.

Inductive Element : Type :=
  mkElement {
    tag : string;
    attrib : gmap string string;
    text : option string;
    tail : option string;
    children : list Element
  }.

(** [elem.get(key)] *)
Definition get (elem : Element) (key : string) : option string :=
  attrib elem !! key.

(** [if t: yield t] *)
Definition text_chunk (t : option string) : string :=
  match t with
  | Some s => s
  | None => EmptyString
  end.

(** ["".join(e.itertext())] *)
Fixpoint itertext (e : Element) : string :=
  text_chunk (text e) ++
  (fix inner (l : list Element) : string :=
     match l with
     | [] => EmptyString
     | c :: l' => itertext c ++ text_chunk (tail c) ++ inner l'
     end) (children e).

(** One compiled selector of ElementPath. *)
Inductive step : Type :=
  | Child (t : string)             (* tag *)
  | Star                           (* * *)
  | AttrEq (key value : string)    (* [@key='value'] *)
  | ChildTextEq (t value : string) (* [tag='value'] *).

Definition has_tag (t : string) (e : Element) : bool := String.eqb (tag e) t.

(** [select(context, result)] of each selector, on the sequence that
    the generator yields. *)
Definition select (s : step) (result : list Element) : list Element :=
  match s with
  | Child t => flat_map (fun elem => List.filter (has_tag t) (children elem)) result
  | Star => flat_map children result
  | AttrEq key value =>
      List.filter (fun elem => bool_decide (get elem key = Some value)) result
  | ChildTextEq t value =>
      List.filter
        (fun elem =>
           existsb (fun e => String.eqb (itertext e) value)
                   (List.filter (has_tag t) (children elem)))
        result
  end.

(** [iterfind]: the selectors are applied in turn, starting from
    [[elem]]. *)
Definition iterfind_steps (elem : Element) (selector : list step) : list Element :=
  fold_left (fun result s => select s result) selector [elem].

(** [next(iterfind(elem, path), None)] *)
Definition find_steps (elem : Element) (selector : list step) : option Element :=
  head (iterfind_steps elem selector).

(** *** Path strings

    The client builds its locators as strings.  [compile] reads the
    fragment of the ElementPath syntax that these strings use: steps
    separated by [/], each a tag or [*], each followed by predicates
    [[@key='value']] or [[tag='value']].  A string outside the
    fragment is not compiled here; [find] then defers to the
    library. *)

Definition is_name_char (c : ascii) : bool :=
  let n := nat_of_ascii c in
  ((97 <=? n)%nat && (n <=? 122)%nat)
  || ((65 <=? n)%nat && (n <=? 90)%nat)
  || ((48 <=? n)%nat && (n <=? 57)%nat)
  || (n =? 95)%nat.

Definition is_digit (c : ascii) : bool :=
  let n := nat_of_ascii c in (48 <=? n)%nat && (n <=? 57)%nat.

Definition valid_name (name : string) : bool :=
  match name with
  | EmptyString => false
  | String c _ => negb (is_digit c)
  end.

Fixpoint take_name (s : string) : string * string :=
  match s with
  | EmptyString => (EmptyString, EmptyString)
  | String c r =>
      if is_name_char c
      then let '(n, r') := take_name r in (String c n, r')
      else (EmptyString, s)
  end.

(** No single quote occurs in the string. *)
Fixpoint quote_free (s : string) : bool :=
  match s with
  | EmptyString => true
  | String c r => negb (Ascii.eqb c "'"%char) && quote_free r
  end.

(** The text up to the closing quote, and what follows the quote. *)
Fixpoint take_quoted (s : string) : option (string * string) :=
  match s with
  | EmptyString => None
  | String c r =>
      if Ascii.eqb c "'"%char then Some (EmptyString, r)
      else match take_quoted r with
           | Some (v, r') => Some (String c v, r')
           | None => None
           end
  end.

(** What follows [=]: a quoted value and the closing bracket. *)
Definition take_value (s : string) : option (string * string) :=
  match s with
  | String "="%char (String "'"%char r) =>
      match take_quoted r with
      | Some (v, String "]"%char r') => Some (v, r')
      | _ => None
      end
  | _ => None
  end.

(** A predicate, read behind its opening bracket. *)
Definition parse_predicate (s : string) : option (step * string) :=
  match s with
  | String "@"%char r =>
      let '(key, r1) := take_name r in
      if valid_name key then
        match take_value r1 with
        | Some (v, r2) => Some (AttrEq key v, r2)
        | None => None
        end
      else None
  | _ =>
      let '(t, r1) := take_name s in
      if valid_name t then
        match take_value r1 with
        | Some (v, r2) => Some (ChildTextEq t v, r2)
        | None => None
        end
      else None
  end.

Fixpoint parse_predicates (fuel : nat) (s : string) : option (list step * string) :=
  match s with
  | String "["%char r =>
      match fuel with
      | O => None
      | S fuel' =>
          match parse_predicate r with
          | Some (p, r1) =>
              match parse_predicates fuel' r1 with
              | Some (ps, r2) => Some (p :: ps, r2)
              | None => None
              end
          | None => None
          end
      end
  | _ => Some ([], s)
  end.

Definition parse_tag (s : string) : option (step * string) :=
  match s with
  | String "*"%char r => Some (Star, r)
  | _ =>
      let '(t, r) := take_name s in
      if valid_name t then Some (Child t, r) else None
  end.

Fixpoint parse_steps (fuel : nat) (s : string) : option (list step) :=
  match fuel with
  | O => None
  | S fuel' =>
      match parse_tag s with
      | Some (t, r) =>
          match parse_predicates fuel' r with
          | Some (ps, EmptyString) => Some (t :: ps)
          | Some (ps, String "/"%char r') =>
              match parse_steps fuel' r' with
              | Some rest => Some (t :: ps ++ rest)
              | None => None
              end
          | _ => None
          end
      | None => None
      end
  end.

Definition compile (path : string) : option (list step) :=
  parse_steps (String.length path) path.

End Etree.

(** ** The Python library under the client

    The client calls three library functions whose code is not part of
    the repository: the built-in [float] on a string ([None] stands for
    [ValueError]), [Etree.fromstring], and [Element.find] on a path
    string outside the compiled fragment.  Of [float] one fact is used:
    it rejects the empty string. *)

Class PyLib : Type := {
  float_t : Type;
  py_float : string -> option float_t;
  etree_fromstring : string -> result Etree.Element;
  etree_find : Etree.Element -> string -> result (option Etree.Element);
  (** [float('')] raises [ValueError]. *)
  py_float_empty : py_float EmptyString = None
}.

Section Library.
Context {L : PyLib}.

(** [float(x)] for [x] a string or [None]. *)
Definition float (x : option string) : result float_t :=
  match x with
  | None => Raise TypeError
  | Some s =>
      match py_float s with
      | Some v => Return v
      | None => Raise ValueError
      end
  end.

(** [elem.find(path)] *)
Definition find (elem : Etree.Element) (path : string) : result (option Etree.Element) :=
  match Etree.compile path with
  | Some selector => Return (Etree.find_steps elem selector)
  | None => etree_find elem path
  end.

End Library.

(** ** The client and its environment *)

Definition PLUGWISE_PING_ENDPOINT : string := "/ping".
Definition PLUGWISE_DOMAIN_OBJECTS_ENDPOINT : string := "/core/domain_objects".

(** [dt.timedelta(seconds=2)]; times and durations are counted in
    microseconds, the resolution of [datetime]. *)
Definition MIN_TIME_BETWEEN_UPDATES : Z := 2000000.

(** The fields of a [Plugwise] object that the modelled methods read or
    write.  The session, the credentials and the per-request timeout
    only act through the outcome of each GET, which the environment
    supplies. *)
Record Plugwise : Type := mkPlugwise {
  _legacy_anna : bool;
  _endpoint : string;
  _throttle_time : option Z;
  _domain_objects : option Etree.Element
}.

(** What [websession.get] under [async_timeout.timeout] does, together
    with the reading of the response that follows it: the GET raises
    [asyncio.TimeoutError], it raises an [aiohttp.ClientError], it
    yields a response whose text ([await resp.text()]) is [body], or it
    yields a response whose text cannot be read, [await resp.text()]
    raising [e].  The text is read outside the [try] block of the
    caller. *)
Inductive attempt : Type :=
  | GetTimeout
  | GetClientError
  | GetResponse (body : string)
  | GetUnreadable (e : exn).

(** The environment: [net k url] is the outcome of the GET of [url]
    issued after [k] earlier GETs, [gets] logs the URLs requested (the
    latest first), [clock k] is what [datetime.now()] reads at its
    [k]-th call and [ticks] counts the readings taken. *)
Record World : Type := mkWorld {
  net : nat -> string -> attempt;
  gets : list string;
  clock : nat -> Z;
  ticks : nat
}.

Record Sys : Type := mkSys {
  self : Plugwise;
  env : World
}.

(** A method call: it returns or raises, and leaves a state behind. *)
Definition M (A : Type) : Type := Sys -> result A * Sys.

Definition ret {A : Type} (a : A) : M A := fun s => (Return a, s).

Definition bind {A B : Type} (c : M A) (k : A -> M B) : M B :=
  fun s =>
    match c s with
    | (Return a, s') => k a s'
    | (Raise e, s') => (Raise e, s')
    end.

Notation "x <~ c ;; k" := (bind c (fun x => k))
  (at level 100, c at next level, k at level 200, right associativity).

Definition lift {A : Type} (r : result A) : M A := fun s => (r, s).

Definition get_self : M Plugwise := fun s => (Return (self s), s).

Definition set_throttle_time (t : option Z) : M unit :=
  fun s =>
    (Return tt,
     mkSys (mkPlugwise (_legacy_anna (self s)) (_endpoint (self s)) t
                       (_domain_objects (self s)))
           (env s)).

Definition set_domain_objects (d : option Etree.Element) : M unit :=
  fun s =>
    (Return tt,
     mkSys (mkPlugwise (_legacy_anna (self s)) (_endpoint (self s))
                       (_throttle_time (self s)) d)
           (env s)).

(** [await self.websession.get(url, auth=self._auth)] inside the timeout
    block; the caller decides what to do with a failure. *)
Definition websession_get (url : string) : M attempt :=
  fun s =>
    let w := env s in
    (Return (net w (length (gets w)) url),
     mkSys (self s) (mkWorld (net w) (url :: gets w) (clock w) (ticks w))).

(** [dt.datetime.now()] *)
Definition now : M Z :=
  fun s =>
    let w := env s in
    (Return (clock w (ticks w)),
     mkSys (self s) (mkWorld (net w) (gets w) (clock w) (S (ticks w)))).

(** [needle in haystack] on strings *)
Fixpoint contains (needle haystack : string) : bool :=
  String.prefix needle haystack
  || match haystack with
     | EmptyString => false
     | String _ rest => contains needle rest
     end.

Definition double_quote : ascii := ascii_of_nat 34.

(** The literal [{"errorCode":0}] *)
Definition error_code_0 : string :=
  "{" ++ String double_quote "errorCode" ++ String double_quote ":0}".

Section Client.
Context {L : PyLib}.

(** *** Transport *)

(** [connect(retry)], with [fuel] bounding the self-calls; [connect]
    below starts it with enough, so the branch for spent fuel is never
    taken (see [connect_unfold]). *)
Fixpoint connect_rec (fuel : nat) (retry : Z) : M bool :=
  me <~ get_self ;;
  let url := _endpoint me ++ PLUGWISE_PING_ENDPOINT in
  resp <~ websession_get url ;;
  match resp with
  | GetTimeout | GetClientError =>
      if retry <? 1 then ret false
      else match fuel with
           | O => ret false
           | S fuel' => connect_rec fuel' (retry - 1)
           end
  | GetResponse result =>
      if negb (contains "error" result) then ret false
      else ret true
  | GetUnreadable e => lift (Raise e)
  end.

Definition connect (retry : Z) : M bool :=
  connect_rec (Z.to_nat retry) retry.

(** [request(command, retry)]; the fuel is as in [connect_rec] (see
    [request_unfold]). *)
Fixpoint request_rec (fuel : nat) (command : string) (retry : Z)
  : M (option Etree.Element) :=
  me <~ get_self ;;
  let url := _endpoint me ++ command in
  resp <~ websession_get url ;;
  match resp with
  | GetTimeout =>
      if retry <? 1 then ret None
      else match fuel with
           | O => ret None
           | S fuel' => request_rec fuel' command (retry - 1)
           end
  | GetClientError => ret None
  | GetResponse result =>
      if String.eqb result EmptyString || String.eqb result error_code_0
      then ret None
      else
        tree <~ lift (etree_fromstring
                        (Sanitize.escape_illegal_xml_characters result)) ;;
        ret (Some tree)
  | GetUnreadable e => lift (Raise e)
  end.

Definition request (command : string) (retry : Z) : M (option Etree.Element) :=
  request_rec (Z.to_nat retry) command retry.

(** *** Snapshot refresh *)

Definition update_domain_objects : M (option Etree.Element) :=
  r <~ request PLUGWISE_DOMAIN_OBJECTS_ENDPOINT 3 ;;
  _ <~ set_domain_objects r ;;
  me <~ get_self ;;
  ret (_domain_objects me).

Definition refresh_now : M unit :=
  t <~ now ;;
  _ <~ set_throttle_time (Some t) ;;
  _ <~ update_domain_objects ;;
  ret tt.

Definition throttle_update_domain_objects : M unit :=
  me <~ get_self ;;
  match _throttle_time me with
  | None => refresh_now
  | Some last =>
      t <~ now ;;
      if t - last <? MIN_TIME_BETWEEN_UPDATES then ret tt
      else refresh_now
  end.

Definition update_device : M unit := throttle_update_domain_objects.

Definition find_all_appliances : M unit :=
  _ <~ update_domain_objects ;; ret tt.

(** *** Queries on the snapshot *)

(** Python truth of a string or [None] *)
Definition truthy (x : option string) : bool :=
  match x with
  | Some (String _ _) => true
  | _ => false
  end.

Definition get_point_log_id (xmldata : Etree.Element) (log_type : string)
  : result (option string) :=
  let locator :=
    "module/services/*[@log_type='" ++ log_type ++ "']/functionalities/point_log" in
  rbind (find xmldata locator) (fun found =>
    match found with
    | Some e =>
        match Etree.attrib e !! "id" with
        | Some id => Return (Some id)
        | None => Raise KeyError
        end
    | None => Return None
    end).

Definition get_measurement_from_point_log
    (xmldata : Etree.Element) (point_log_id : string)
  : result (option string) :=
  let locator := "*/logs/point_log[@id='" ++ point_log_id ++ "']/period/measurement" in
  rbind (find xmldata locator) (fun found =>
    match found with
    | Some e => Return (Etree.text e)
    | None => Return None
    end).

(** [self._domain_objects] when a method is called on it: [None] has
    no [find]. *)
Definition domain_objects (me : Plugwise) : result Etree.Element :=
  match _domain_objects me with
  | Some xmldata => Return xmldata
  | None => Raise AttributeError
  end.

Definition get_current_preset (me : Plugwise) : result (option string) :=
  if _legacy_anna me then
    rbind (domain_objects me) (fun xmldata =>
    rbind (find xmldata "rule[active='true']/directives/when/then") (fun active_rule =>
      match active_rule with
      | None => Return (Some "none")
      | Some rule =>
          match Etree.attrib rule !! "icon" with
          | None => Return (Some "none")
          | Some icon => Return (Some icon)
          end
      end))
  else
    let log_type := "preset_state" in
    let locator :=
      "appliance[type='thermostat']/logs/point_log[type='"
      ++ log_type ++ "']/period/measurement" in
    rbind (domain_objects me) (fun xmldata =>
    rbind (find xmldata locator) (fun found =>
      match found with
      | Some e => Return (Etree.text e)
      | None => Raise AttributeError
      end)).

Definition get_schedule_temperature (me : Plugwise) : result (option float_t) :=
  rbind (domain_objects me) (fun xmldata =>
  rbind (get_point_log_id xmldata "schedule_temperature") (fun point_log_id =>
    match point_log_id with
    | Some (String _ _ as id) =>                        (* if point_log_id: *)
        rbind (get_measurement_from_point_log xmldata id) (fun measurement =>
          if truthy measurement then                    (* if measurement: *)
            rbind (float measurement) (fun value => Return (Some value))
          else Return None)
    | _ => Return None
    end)).

Definition get_current_temperature (me : Plugwise) : result (option float_t) :=
  rbind (domain_objects me) (fun xmldata =>
  rbind (get_point_log_id xmldata "temperature") (fun current_temp_point_log_id =>
    match current_temp_point_log_id with
    | Some (String _ _ as id) =>          (* if current_temp_point_log_id: *)
        rbind (get_measurement_from_point_log xmldata id) (fun measurement =>
          rbind (float measurement) (fun value => Return (Some value)))
    | _ => Return None
    end)).

End Client.

(** ** Vocabulary of the transport properties *)

(** The outcome of the [k]-th GET of a call that starts in [s]. *)
Definition attempt_at (s : Sys) (url : string) (k : nat) : attempt :=
  net (env s) (k + length (gets (env s)))%nat url.

Definition is_timeout (a : attempt) : bool :=
  match a with
  | GetTimeout => true
  | _ => false
  end.

Definition is_transport_error (a : attempt) : bool :=
  match a with
  | GetTimeout | GetClientError => true
  | GetResponse _ | GetUnreadable _ => false
  end.

(** A call with retry argument [retry] issues at most [budget retry + 1]
    GETs. *)
Definition budget (retry : Z) : nat := Z.to_nat retry.

Section Attempts.
Variable retried : attempt -> bool.

(** Every GET the budget allows fails in the retried way. *)
Definition exhausted (s : Sys) (url : string) (n : nat) : Prop :=
  forall k, (k <= n)%nat -> retried (attempt_at s url k) = true.

(** The call is settled by its [k]-th GET, whose outcome is [a]: the
    earlier ones were retried and this one is not. *)
Definition settled (s : Sys) (url : string) (n : nat) (a : attempt) : Prop :=
  exists k, (k <= n)%nat
            /\ (forall j, (j < k)%nat -> retried (attempt_at s url j) = true)
            /\ attempt_at s url k = a
            /\ retried a = false.
End Attempts.

(** [needle] occurs in [haystack]. *)
Definition occurs_in (needle haystack : string) : Prop :=
  exists before after, haystack = before ++ needle ++ after.

(** The number of GETs issued between two states. *)
Definition gets_between (s s' : Sys) : Z :=
  Z.of_nat (length (gets (env s'))) - Z.of_nat (length (gets (env s))).

(** ** Vocabulary of the refresh properties *)

(** A fetch of the domain objects took place between [s] and [s']: the
    GETs issued in between, one and up to three retries, all went to
    the domain-objects URL. *)
Definition fetched (s s' : Sys) : Prop :=
  exists k, (1 <= k <= 4)%nat
            /\ gets (env s')
               = List.app
                   (repeat (_endpoint (self s) ++ PLUGWISE_DOMAIN_OBJECTS_ENDPOINT) k)
                   (gets (env s)).

(** What the next call of [datetime.now()] reads in [s]. *)
Definition reading (s : Sys) : Z := clock (env s) (ticks (env s)).

(** A call of [throttle_update_domain_objects] in [s] is not held back:
    no timestamp is recorded, or the reading is at least two seconds
    past it. *)
Definition unthrottled (s : Sys) : Prop :=
  match _throttle_time (self s) with
  | None => True
  | Some last => MIN_TIME_BETWEEN_UPDATES <= reading s - last
  end.

(** ** Vocabulary of the preset property *)

(** A rule element is marked active: it has a child [active] whose text
    is [true]. *)
Definition marked_active (r : Etree.Element) : bool :=
  Etree.has_tag "rule" r
  && existsb (fun c => Etree.has_tag "active" c && String.eqb (Etree.itertext c) "true")
             (Etree.children r).

Definition children_tagged (t : string) (e : Etree.Element) : list Etree.Element :=
  List.filter (Etree.has_tag t) (Etree.children e).

(** The [then] directives of the active rules of a snapshot, in document
    order: under each active rule, each [directives] child, each [when]
    child of it, each [then] child of that. *)
Definition active_then_directives (xmldata : Etree.Element) : list Etree.Element :=
  flat_map
    (fun r =>
       flat_map
         (fun d => flat_map (children_tagged "then") (children_tagged "when" d))
         (children_tagged "directives" r))
    (List.filter marked_active (Etree.children xmldata)).

(** ** A sample library and sample states

    Closed examples need a library to run on.  [Sample.lib] reads plain
    decimal literals of at most fifteen digits as binary64 numbers (on
    these a single correctly rounded division gives the nearest
    double) and rejects every other string, parses the documents of a
    small table and rejects every path string outside the compiled
    fragment.  The properties below hold for every library; the sample
    only serves the closed examples. *)

Module Sample.

Definition digit_value (c : ascii) : option Z :=
  if Etree.is_digit c then Some (Z.of_nat (nat_of_ascii c) - 48) else None.

(** The leading digits read as a number, their count, and the rest. *)
Fixpoint take_digits (acc : Z) (count : nat) (s : string) : Z * nat * string :=
  match s with
  | EmptyString => (acc, count, EmptyString)
  | String c r =>
      match digit_value c with
      | Some d => take_digits (10 * acc + d) (S count) r
      | None => (acc, count, s)
      end
  end.

Definition binary64 (m : Z) (negative : bool) : spec_float :=
  binary_normalize 53 1024 m 0 negative.

Definition unsigned_decimal (negative : bool) (s : string) : option spec_float :=
  let '(ip, ni, r) := take_digits 0 0%nat s in
  let '(m, nf, r') :=
    match r with
    | String "."%char q => take_digits ip 0%nat q
    | _ => (ip, 0%nat, r)
    end in
  match r' with
  | EmptyString =>
      if ((1 <=? ni + nf) && (ni + nf <=? 15))%nat
      then Some (SFdiv 53 1024
                   (binary64 (if negative then - m else m) negative)
                   (binary64 (10 ^ Z.of_nat nf) false))
      else None
  | _ => None
  end.

Definition decimal_float (s : string) : option spec_float :=
  match s with
  | String "-"%char r => unsigned_decimal true r
  | String "+"%char r => unsigned_decimal false r
  | _ => unsigned_decimal false s
  end.

(** The binary64 number 19.5, that is 39 * 2^-1 with a 53-bit
    mantissa. *)
Definition f19_5 : spec_float := S754_finite false 5488762045857792 (-48).

Definition node (t : string) (attrs : gmap string string)
    (kids : list Etree.Element) : Etree.Element :=
  Etree.mkElement t attrs None None kids.

Definition leaf (t : string) (content : string) : Etree.Element :=
  Etree.mkElement t ∅ (Some content) None [].

(** An appliance of type [t] with one point log. *)
Definition appliance (t log_type id measurement : string) : Etree.Element :=
  node "appliance" ∅
    [ leaf "type" t;
      node "logs" ∅
        [ node "point_log" {[ "id" := id ]}
            [ leaf "type" log_type;
              node "period" ∅ [ leaf "measurement" measurement ] ] ] ].

(** A module with one service of the given log type, whose
    functionalities refer to the point log [id]. *)
Definition module (service log_type id : string) : Etree.Element :=
  node "module" ∅
    [ node "services" ∅
        [ node service {[ "log_type" := log_type ]}
            [ node "functionalities" ∅
                [ node "point_log" {[ "id" := id ]} [] ] ] ] ].

(** The snapshot of one thermostat appliance with the point log of
    type temperature, id 42 and measurement 19.5. *)
Definition appliance_snapshot : Etree.Element :=
  node "domain_objects" ∅ [ appliance "thermostat" "temperature" "42" "19.5" ].

(** The same appliance together with the module whose temperature
    service refers to point log 42. *)
Definition module_snapshot : Etree.Element :=
  node "domain_objects" ∅
    [ module "temperature" "temperature" "42";
      appliance "thermostat" "temperature" "42" "19.5" ].

(** A module that refers to point log [id], and no log at all. *)
Definition dangling_snapshot (log_type id : string) : Etree.Element :=
  node "domain_objects" ∅ [ module log_type log_type id ].

(** A rule, active or not, whose [then] directive carries [attrs]. *)
Definition rule (active : string) (attrs : gmap string string) : Etree.Element :=
  node "rule" ∅
    [ leaf "active" active;
      node "directives" ∅ [ node "when" ∅ [ node "then" attrs [] ] ] ].

Definition documents : list (string * Etree.Element) :=
  [ ("<domain_objects/>", node "domain_objects" ∅ []);
    ("<a>1 &amp; 2</a>", leaf "a" "1 & 2") ].

Fixpoint lookup_document (table : list (string * Etree.Element)) (body : string)
  : result Etree.Element :=
  match table with
  | [] => Raise ParseError
  | (text, tree) :: rest =>
      if String.eqb text body then Return tree else lookup_document rest body
  end.

#[export] Instance lib : PyLib := {|
  float_t := spec_float;
  py_float := decimal_float;
  etree_fromstring := lookup_document documents;
  etree_find := fun _ _ => Raise SyntaxError;
  py_float_empty := eq_refl
|}.

Definition client (legacy : bool) (snapshot : option Etree.Element) : Plugwise :=
  mkPlugwise legacy "http://anna:80" None snapshot.

(** A state whose GETs have the outcomes [outcomes], in this order,
    and time out afterwards, and whose clock shows [times] and then
    stands still at zero. *)
Definition state (me : Plugwise) (outcomes : list attempt) (times : list Z) : Sys :=
  mkSys me
        (mkWorld (fun k _ => nth k outcomes GetTimeout) []
                 (fun k => nth k times 0) 0).

(** Modules for both temperatures, each referring to a point log that
    no appliance holds. *)
Definition dangling_pair (id : string) : Etree.Element :=
  node "domain_objects" ∅
    [ module "thermostat" "temperature" id;
      module "schedule" "schedule_temperature" id ].

(** A module whose temperature service refers to a point log by the
    empty id, and a thermostat appliance whose point log has the empty
    id and the measurement 19.5. *)
Definition empty_id_snapshot : Etree.Element :=
  node "domain_objects" ∅
    [ module "thermostat" "temperature" "";
      appliance "thermostat" "temperature" "" "19.5" ].

(** Two rules, the second of them active with icon [home]. *)
Definition rules_snapshot : Etree.Element :=
  node "domain_objects" ∅
    [ rule "false" {[ "icon" := "away" ]};
      rule "true" {[ "icon" := "home" ]} ].

(** A client that holds a snapshot and whose next fetch meets a client
    error. *)
Definition failing_fetch : Sys :=
  state (client false (Some module_snapshot)) [GetClientError] [].

(** A fresh client polled at 0 s and again at [second_poll]
    microseconds; both fetches are answered with an empty document.  The
    clock is read once by the first call and once or twice by the
    second. *)
Definition polled_twice (second_poll : Z) : Sys :=
  state (client false None)
        [GetResponse "<domain_objects/>"; GetResponse "<domain_objects/>"]
        [0; second_poll; second_poll].

End Sample.

(** ** The constructor, the platform setup and the entity *)

(** [str(port)] for an integer port *)
Definition str_of_int (n : Z) : string := NilZero.string_of_int (Z.to_int n).

(** [Plugwise.__init__]: the fields it sets, for the arguments that
    reach them.  The user name, the password and the timeout go into the
    session, which the environment stands for. *)
Definition init (host : string) (port : Z) (legacy_anna : bool) : Plugwise :=
  mkPlugwise legacy_anna ("http://" ++ host ++ ":" ++ str_of_int port) None None.

(** A [PlugwiseAnna] entity.  Its [_conn] is the client object of the
    state it is used in; its [_hvac_mode] is always [None]. *)
Record PlugwiseAnna : Type := mkPlugwiseAnna {
  _name : string
}.

(** [plugwise_data_connection = Plugwise(host=..., password=...,
    websession=...)]: the client of the state is the new object. *)
Definition new_client (host : string) : M unit :=
  fun s => (Return tt, mkSys (init host 80 false) (env s)).

Section Platform.
Context {L : PyLib}.

(** [async_setup_platform]: the value is the list handed to
    [async_add_entities], and the empty list when that is not called.
    The coroutine [plugwise_data_connection.request(...)] that the
    function creates is never awaited, so it issues no GET. *)
Definition async_setup_platform (host name : string) : M (list PlugwiseAnna) :=
  _ <~ new_client host ;;
  connected <~ connect 2 ;;
  if negb connected then ret []
  else
    _ <~ find_all_appliances ;;
    me <~ get_self ;;
    _ <~ lift (get_current_preset me) ;;
    _ <~ lift (get_current_temperature me) ;;
    _ <~ lift (get_schedule_temperature me) ;;
    ret [mkPlugwiseAnna name].

(** [n] calls of [update_device] in a row, as a polling host makes
    them; the state after the last one. *)
Fixpoint poll (n : nat) (s : Sys) : Sys :=
  match n with
  | O => s
  | S n' => poll n' (snd (update_device s))
  end.

End Platform.

(** ** Further vocabulary *)

Module Ampersands.
Import Sanitize.

(** Every ampersand is followed by a letter or [#]. *)
Fixpoint legal (xmldata : string) : bool :=
  match xmldata with
  | EmptyString => true
  | String c rest =>
      (if is_amp c then followed_by_entity_start rest else true) && legal rest
  end.

(** The number of ampersands. *)
Fixpoint count (xmldata : string) : nat :=
  match xmldata with
  | EmptyString => O
  | String c rest => ((if is_amp c then 1 else 0) + count rest)%nat
  end.

(** The last character is an ampersand. *)
Fixpoint ends_with_amp (xmldata : string) : bool :=
  match xmldata with
  | EmptyString => false
  | String c EmptyString => is_amp c
  | String _ rest => ends_with_amp rest
  end.

End Ampersands.

(** The call is settled by exactly its [k]-th GET (counted from 0). *)
Definition settled_at (retried : attempt -> bool)
    (s : Sys) (url : string) (k : nat) (a : attempt) : Prop :=
  (forall j, (j < k)%nat -> retried (attempt_at s url j) = true)
  /\ attempt_at s url k = a
  /\ retried a = false.

(** [elem.get(key) == value] *)
Definition attr_is (key value : string) (e : Etree.Element) : bool :=
  bool_decide (Etree.get e key = Some value).

(** The element has a child [t] whose text is [value]. *)
Definition child_text_is (t value : string) (e : Etree.Element) : bool :=
  existsb (fun c => String.eqb (Etree.itertext c) value) (children_tagged t e).

(** The point logs that the services of a log type refer to, in
    document order: under each [module] child of the snapshot, each
    [services] child, each child of it whose [log_type] attribute is
    the log type, each [functionalities] child, each [point_log]
    child. *)
Definition service_point_logs (log_type : string) (xmldata : Etree.Element)
  : list Etree.Element :=
  flat_map
    (fun m =>
       flat_map
         (fun services =>
            flat_map
              (fun service =>
                 flat_map (children_tagged "point_log")
                          (children_tagged "functionalities" service))
              (List.filter (attr_is "log_type" log_type) (Etree.children services)))
         (children_tagged "services" m))
    (children_tagged "module" xmldata).

(** The measurements logged under a point-log id, in document order:
    under each child of the snapshot, each [logs] child, each
    [point_log] child with that [id] attribute, each [period] child,
    each [measurement] child. *)
Definition logged_measurements (point_log_id : string) (xmldata : Etree.Element)
  : list Etree.Element :=
  flat_map
    (fun appliance =>
       flat_map
         (fun logs =>
            flat_map
              (fun point_log =>
                 flat_map (children_tagged "measurement")
                          (children_tagged "period" point_log))
              (List.filter (attr_is "id" point_log_id)
                           (children_tagged "point_log" logs)))
         (children_tagged "logs" appliance))
    (Etree.children xmldata).

(** The preset measurements of the thermostat, in document order: under
    each [appliance] child with a [type] child of text [thermostat],
    each [logs] child, each [point_log] child with a [type] child of
    text [preset_state], each [period] child, each [measurement]
    child. *)
Definition preset_measurements (xmldata : Etree.Element) : list Etree.Element :=
  flat_map
    (fun appliance =>
       flat_map
         (fun logs =>
            flat_map
              (fun point_log =>
                 flat_map (children_tagged "measurement")
                          (children_tagged "period" point_log))
              (List.filter (child_text_is "type" "preset_state")
                           (children_tagged "point_log" logs)))
         (children_tagged "logs" appliance))
    (List.filter
       (fun a => Etree.has_tag "appliance" a && child_text_is "type" "thermostat" a)
       (Etree.children xmldata)).

(** ** Further sample states *)

Module Scenario.

(** A client that holds a snapshot and whose next fetch is answered
    with a body that does not parse. *)
Definition unparseable_fetch : Sys :=
  Sample.state (Sample.client false (Some Sample.module_snapshot))
               [GetResponse "<broken"] [].

(** A client without a snapshot whose fetch times out once and is then
    answered with an empty document. *)
Definition answered_fetch : Sys :=
  Sample.state (Sample.client false None)
               [GetTimeout; GetResponse "<domain_objects/>"] [].

(** A client that refreshed at time 0 and is polled at the given
    times. *)
Definition refreshed_at_0 (times : list Z) : Sys :=
  Sample.state
    (mkPlugwise false "http://anna:80" (Some 0) (Some Sample.module_snapshot))
    [] times.

(** A host state before the platform is set up: the GETs to come have
    the given outcomes. *)
Definition before_setup (outcomes : list attempt) : Sys :=
  Sample.state (Sample.client false None) outcomes [].

(** A snapshot with the services and logs of both temperatures and of
    the preset. *)
Definition full_snapshot : Etree.Element :=
  Sample.node "domain_objects" ∅
    [ Sample.module "thermostat" "temperature" "42";
      Sample.module "schedule" "schedule_temperature" "43";
      Sample.appliance "thermostat" "temperature" "42" "19.5";
      Sample.appliance "thermostat" "schedule_temperature" "43" "21";
      Sample.appliance "thermostat" "preset_state" "44" "home" ].

(** The same logs with a current temperature that is no number. *)
Definition garbled_snapshot : Etree.Element :=
  Sample.node "domain_objects" ∅
    [ Sample.module "thermostat" "temperature" "42";
      Sample.module "schedule" "schedule_temperature" "43";
      Sample.appliance "thermostat" "temperature" "42" "n/a";
      Sample.appliance "thermostat" "schedule_temperature" "43" "off" ].

(** A client whose ping times out once and is then answered by a
    response whose text does not decode. *)
Definition unreadable_ping : Sys :=
  Sample.state (Sample.client false None)
               [GetTimeout; GetUnreadable UnicodeDecodeError] [].

(** The text of [full_snapshot], and a library that parses it. *)
Definition full_document : string :=
  "<domain_objects>"
  ++ "<module><services><thermostat log_type='temperature'><functionalities>"
  ++ "<point_log id='42'/></functionalities></thermostat></services></module>"
  ++ "<module><services><schedule log_type='schedule_temperature'><functionalities>"
  ++ "<point_log id='43'/></functionalities></schedule></services></module>"
  ++ "<appliance><type>thermostat</type><logs><point_log id='42'>"
  ++ "<type>temperature</type><period><measurement>19.5</measurement></period>"
  ++ "</point_log></logs></appliance>"
  ++ "<appliance><type>thermostat</type><logs><point_log id='43'>"
  ++ "<type>schedule_temperature</type><period><measurement>21</measurement></period>"
  ++ "</point_log></logs></appliance>"
  ++ "<appliance><type>thermostat</type><logs><point_log id='44'>"
  ++ "<type>preset_state</type><period><measurement>home</measurement></period>"
  ++ "</point_log></logs></appliance>"
  ++ "</domain_objects>".

#[export] Instance lib : PyLib := {|
  float_t := spec_float;
  py_float := Sample.decimal_float;
  etree_fromstring :=
    Sample.lookup_document ((full_document, full_snapshot) :: Sample.documents);
  etree_find := fun _ _ => Raise SyntaxError;
  py_float_empty := eq_refl
|}.

End Scenario.

(** * Properties *)

(** ** The sanitiser *)

Example escape_A_and_B :
  Sanitize.escape_illegal_xml_characters "A & B" = "A &amp; B".
Proof. reflexivity. Qed.

Example escape_keeps_entities :
  Sanitize.escape_illegal_xml_characters "a &lt; b &#38; c" = "a &lt; b &#38; c".
Proof. reflexivity. Qed.

Module SanitizeFacts.
Import Sanitize.

(** Induction that follows the two-character scan. *)
Lemma string_pair_ind (P : string -> Prop) :
  P EmptyString ->
  (forall c, P (String c EmptyString)) ->
  (forall c d s, P s -> P (String d s) -> P (String c (String d s))) ->
  forall s, P s.
Proof.
  intros H0 H1 H2 s.
  assert (H : P s /\ forall c, P (String c s)).
  { induction s as [|d s [IH1 IH2]].
    - split; [exact H0 | exact H1].
    - split; [apply IH2 | intros c; apply H2; [exact IH1 | apply IH2]]. }
  exact (proj1 H).
Qed.

Lemma escape_cons_other c rest :
  is_amp c = false ->
  escape_illegal_xml_characters (String c rest)
  = String c (escape_illegal_xml_characters rest).
Proof. intros H. simpl. rewrite H. reflexivity. Qed.

Lemma escape_amp_entity d rest :
  is_entity_start d = true ->
  escape_illegal_xml_characters (String amp (String d rest))
  = String amp (escape_illegal_xml_characters (String d rest)).
Proof. intros H. cbn [escape_illegal_xml_characters]. rewrite H. reflexivity. Qed.

Lemma escape_amp_other d rest :
  is_entity_start d = false ->
  escape_illegal_xml_characters (String amp (String d rest))
  = "&amp;" ++ String d (escape_illegal_xml_characters rest).
Proof. intros H. cbn [escape_illegal_xml_characters]. rewrite H. reflexivity. Qed.

Lemma is_amp_true c : is_amp c = true -> c = amp.
Proof. unfold is_amp. apply Ascii.eqb_eq. Qed.

Lemma amp_not_entity_start : is_entity_start amp = false.
Proof. reflexivity. Qed.

(** Where no ampersand ends the input or follows another one, the scan
    escapes exactly the ampersands that the specification names. *)
Lemma escape_agrees_when_separated (s : string) :
  ampersands_separated s = true ->
  escape_illegal_xml_characters s = escape_every_ampersand s.
Proof.
  pattern s. apply string_pair_ind; clear s.
  - reflexivity.
  - intros c H. cbn [ampersands_separated] in H.
    destruct (is_amp c) eqn:Hc; [discriminate|].
    cbn [escape_illegal_xml_characters escape_every_ampersand].
    rewrite Hc. reflexivity.
  - intros c d s IHs IHd H.
    cbn [ampersands_separated] in H. apply andb_true_iff in H.
    destruct H as [Hcd Hd]. fold ampersands_separated in Hd.
    assert (Hd' : ampersands_separated (String d s) = true) by exact Hd.
    destruct (is_amp c) eqn:Hc.
    + apply is_amp_true in Hc. subst c.
      apply negb_true_iff in Hcd.
      destruct (is_entity_start d) eqn:He.
      * rewrite (escape_amp_entity d s He), (IHd Hd').
        cbn [escape_every_ampersand followed_by_entity_start].
        rewrite He. reflexivity.
      * rewrite (escape_amp_other d s He).
        cbn [ampersands_separated] in Hd. apply andb_true_iff in Hd.
        destruct Hd as [_ Hs]. rewrite (IHs Hs).
        cbn [escape_every_ampersand followed_by_entity_start].
        rewrite He, Hcd. reflexivity.
    + rewrite (escape_cons_other c (String d s) Hc), (IHd Hd').
      cbn [escape_every_ampersand]. rewrite Hc. reflexivity.
Qed.

End SanitizeFacts.

(** C10: whatever precedes it, an ampersand that ends the input ends
    the sanitised output too: the output is some text followed by a bare
    ampersand. *)
Theorem escape_trailing_ampersand :
  forall s : string,
    exists t : string,
      Sanitize.escape_illegal_xml_characters (s ++ "&") = t ++ "&".
Proof.
  intros s. pattern s. apply SanitizeFacts.string_pair_ind; clear s.
  - exists EmptyString. reflexivity.
  - intros c. destruct (Sanitize.is_amp c) eqn:Hc.
    + apply SanitizeFacts.is_amp_true in Hc. subst c.
      exists "&amp;". reflexivity.
    + exists (String c EmptyString).
      change (String c "" ++ "&") with (String c "&").
      rewrite SanitizeFacts.escape_cons_other by exact Hc. reflexivity.
  - intros c d s [t Ht] [u Hu].
    change (String c (String d s) ++ "&") with (String c (String d (s ++ "&"))).
    change (String d s ++ "&") with (String d (s ++ "&")) in Hu.
    destruct (Sanitize.is_amp c) eqn:Hc.
    + apply SanitizeFacts.is_amp_true in Hc. subst c.
      destruct (Sanitize.is_entity_start d) eqn:Hd.
      * rewrite SanitizeFacts.escape_amp_entity by exact Hd.
        rewrite Hu. exists (String Sanitize.amp u). reflexivity.
      * rewrite SanitizeFacts.escape_amp_other by exact Hd.
        rewrite Ht. exists ("&amp;" ++ String d t). reflexivity.
    + rewrite SanitizeFacts.escape_cons_other by exact Hc.
      rewrite Hu. exists (String c u). reflexivity.
Qed.

(** C3 (the code departs from it): on the body [&&1] both ampersands
    are followed by a character that is neither a letter nor [#], yet
    the scan has already consumed the second ampersand as the follower
    of the first and copies it through; escaping every such ampersand
    gives a different text. *)
Theorem escape_misses_adjacent_ampersand :
  Sanitize.escape_illegal_xml_characters "&&1" = "&amp;&1"
  /\ Sanitize.escape_every_ampersand "&&1" = "&amp;&amp;1".
Proof. split; reflexivity. Qed.

(** ** The transport *)

Section AttemptFacts.
Variable retried : attempt -> bool.

Lemma exhausted_or_settled s url n :
  exhausted retried s url n \/ exists a, settled retried s url n a.
Proof.
  induction n as [|n IH].
  - destruct (retried (attempt_at s url 0)) eqn:H0.
    + left. intros k Hk. replace k with 0%nat by lia. exact H0.
    + right. exists (attempt_at s url 0), 0%nat.
      repeat split; [lia | intros j Hj; lia | exact H0].
  - destruct IH as [Hex | [a [k [Hk Hrest]]]].
    + destruct (retried (attempt_at s url (S n))) eqn:Hn.
      * left. intros k Hk.
        destruct (Nat.eq_dec k (S n)) as [->|Hne]; [exact Hn | apply Hex; lia].
      * right. exists (attempt_at s url (S n)), (S n).
        repeat split; [lia | intros j Hj; apply Hex; lia | exact Hn].
    + right. exists a, k. split; [lia | exact Hrest].
Qed.

Lemma exhausted_not_settled s url n a :
  exhausted retried s url n -> settled retried s url n a -> False.
Proof.
  intros Hex [k [Hk [_ [Ha Hr]]]].
  specialize (Hex k Hk). rewrite Ha in Hex. congruence.
Qed.

Lemma settled_unique s url n a b :
  settled retried s url n a -> settled retried s url n b -> a = b.
Proof.
  intros [k [Hk [Hlt [Ha Hra]]]] [j [Hj [Hlt' [Hb Hrb]]]].
  destruct (Nat.lt_trichotomy k j) as [H | [H | H]].
  - specialize (Hlt' k H). rewrite Ha in Hlt'. congruence.
  - subst j. congruence.
  - specialize (Hlt j H). rewrite Hb in Hlt. congruence.
Qed.

Lemma attempt_at_after_get s url u k :
  attempt_at (snd (websession_get u s)) url k = attempt_at s url (S k).
Proof.
  unfold attempt_at, websession_get. simpl. f_equal. lia.
Qed.

Lemma exhausted_after_get s url u n :
  exhausted retried s url (S n) ->
  exhausted retried (snd (websession_get u s)) url n.
Proof.
  intros H k Hk. rewrite attempt_at_after_get. apply H. lia.
Qed.

Lemma settled_here s url n a :
  attempt_at s url 0 = a -> retried a = false -> settled retried s url n a.
Proof.
  intros Ha Hr. exists 0%nat. repeat split; [lia | intros j Hj; lia | exact Ha | exact Hr].
Qed.

Lemma settled_later s url u n a :
  retried (attempt_at s url 0) = true ->
  settled retried (snd (websession_get u s)) url n a ->
  settled retried s url (S n) a.
Proof.
  intros H0 [k [Hk [Hlt [Ha Hr]]]].
  exists (S k). repeat split; [lia | | | exact Hr].
  - intros j Hj. destruct j as [|j]; [exact H0|].
    rewrite <- attempt_at_after_get with (u := u). apply Hlt. lia.
  - rewrite <- attempt_at_after_get with (u := u). exact Ha.
Qed.

Lemma settled_after_get s url u n a :
  retried (attempt_at s url 0) = true ->
  settled retried s url (S n) a ->
  settled retried (snd (websession_get u s)) url n a.
Proof.
  intros H0 [k [Hk [Hlt [Ha Hr]]]].
  destruct k as [|k]; [rewrite Ha in H0; congruence|].
  exists k. repeat split; [lia | | | exact Hr].
  - intros j Hj. rewrite attempt_at_after_get. apply Hlt. lia.
  - rewrite attempt_at_after_get. exact Ha.
Qed.

Lemma settled_budget_0 s url a :
  settled retried s url 0 a -> attempt_at s url 0 = a.
Proof.
  intros [k [Hk [_ [Ha _]]]]. replace k with 0%nat in Ha by lia. exact Ha.
Qed.

End AttemptFacts.

Lemma budget_step retry :
  (retry <? 1) = false -> budget retry = S (budget (retry - 1)).
Proof.
  intros H. apply Z.ltb_ge in H. unfold budget. lia.
Qed.

Lemma budget_none retry : (retry <? 1) = true -> budget retry = 0%nat.
Proof.
  intros H. apply Z.ltb_lt in H. unfold budget. lia.
Qed.

Section RequestFacts.
Context {L : PyLib}.

(** What [request] makes of a response body. *)
Lemma request_rec_step fuel command retry s :
  request_rec fuel command retry s =
  let url := _endpoint (self s) ++ command in
  let s1 := snd (websession_get url s) in
  match attempt_at s url 0 with
  | GetTimeout =>
      if retry <? 1 then (Return None, s1)
      else match fuel with
           | O => (Return None, s1)
           | S fuel' => request_rec fuel' command (retry - 1) s1
           end
  | GetClientError => (Return None, s1)
  | GetResponse result =>
      if String.eqb result EmptyString || String.eqb result error_code_0
      then (Return None, s1)
      else (rbind (etree_fromstring (Sanitize.escape_illegal_xml_characters result))
                  (fun tree => Return (Some tree)), s1)
  | GetUnreadable e => (Raise e, s1)
  end.
Proof.
  unfold attempt_at.
  destruct fuel; cbn [request_rec]; unfold bind, get_self, websession_get, ret, lift;
    cbn [fst snd self env net gets Nat.add];
    (destruct (net (env s) (length (gets (env s))) (_endpoint (self s) ++ command));
     [ destruct (retry <? 1); reflexivity
     | reflexivity
     | destruct (String.eqb body EmptyString || String.eqb body error_code_0);
       [ reflexivity
       | destruct (etree_fromstring (Sanitize.escape_illegal_xml_characters body));
         reflexivity ]
     | reflexivity ]).
Qed.

(** The recursion of the source: [request] calls itself with
    [retry - 1], and the fuel of the model never runs out. *)
Lemma request_unfold command retry s :
  request command retry s =
  let url := _endpoint (self s) ++ command in
  let s1 := snd (websession_get url s) in
  match attempt_at s url 0 with
  | GetTimeout =>
      if retry <? 1 then (Return None, s1)
      else request command (retry - 1) s1
  | GetClientError => (Return None, s1)
  | GetResponse result =>
      if String.eqb result EmptyString || String.eqb result error_code_0
      then (Return None, s1)
      else (rbind (etree_fromstring (Sanitize.escape_illegal_xml_characters result))
                  (fun tree => Return (Some tree)), s1)
  | GetUnreadable e => (Raise e, s1)
  end.
Proof.
  unfold request. rewrite request_rec_step. cbv zeta.
  destruct (attempt_at s (_endpoint (self s) ++ command) 0); try reflexivity.
  destruct (retry <? 1) eqn:Hr; [reflexivity|].
  pose proof (budget_step retry Hr) as Hb. unfold budget in Hb.
  rewrite Hb. reflexivity.
Qed.

Lemma self_after_get u s : self (snd (websession_get u s)) = self s.
Proof. reflexivity. Qed.

Lemma request_exhausted command retry : forall s,
  exhausted is_timeout s (_endpoint (self s) ++ command) (budget retry) ->
  fst (request command retry s) = Return None.
Proof.
  remember (budget retry) as n eqn:Hn. revert retry Hn.
  induction n as [|n IH]; intros retry Hn s Hex; rewrite request_unfold; cbv zeta.
  - pose proof (Hex 0%nat (Nat.le_refl _)) as H0.
    destruct (attempt_at s (_endpoint (self s) ++ command) 0); try discriminate.
    destruct (retry <? 1) eqn:Hr; [reflexivity|].
    rewrite (budget_step retry Hr) in Hn. discriminate.
  - pose proof (Hex 0%nat (Nat.le_0_l _)) as H0.
    destruct (attempt_at s (_endpoint (self s) ++ command) 0); try discriminate.
    destruct (retry <? 1) eqn:Hr; [reflexivity|].
    rewrite (budget_step retry Hr) in Hn. injection Hn as Hn.
    apply (IH (retry - 1) Hn). rewrite self_after_get.
    apply exhausted_after_get. exact Hex.
Qed.

Lemma request_settled command retry a : forall s,
  settled is_timeout s (_endpoint (self s) ++ command) (budget retry) a ->
  fst (request command retry s) =
  match a with
  | GetResponse result =>
      if String.eqb result EmptyString || String.eqb result error_code_0
      then Return None
      else rbind (etree_fromstring (Sanitize.escape_illegal_xml_characters result))
                 (fun tree => Return (Some tree))
  | GetUnreadable e => Raise e
  | _ => Return None
  end.
Proof.
  remember (budget retry) as n eqn:Hn. revert retry Hn.
  induction n as [|n IH]; intros retry Hn s Hs; rewrite request_unfold; cbv zeta.
  - pose proof (settled_budget_0 _ _ _ _ Hs) as H0. rewrite H0.
    destruct Hs as [k [_ [_ [_ Hr]]]].
    destruct a; try discriminate; try reflexivity.
    destruct (_ || _); reflexivity.
  - destruct (attempt_at s (_endpoint (self s) ++ command) 0) eqn:H0.
    + destruct (retry <? 1) eqn:Hr.
      { rewrite (budget_none retry Hr) in Hn. discriminate. }
      rewrite (budget_step retry Hr) in Hn. injection Hn as Hn.
      apply (IH (retry - 1) Hn). rewrite self_after_get.
      apply settled_after_get; [rewrite H0; reflexivity | exact Hs].
    + assert (a = GetClientError) as ->.
      { apply (settled_unique is_timeout s (_endpoint (self s) ++ command) (S n));
          [exact Hs | apply settled_here; [exact H0 | reflexivity]]. }
      reflexivity.
    + assert (a = GetResponse body) as ->.
      { apply (settled_unique is_timeout s (_endpoint (self s) ++ command) (S n));
          [exact Hs | apply settled_here; [exact H0 | reflexivity]]. }
      destruct (_ || _); reflexivity.
    + assert (a = GetUnreadable e) as ->.
      { apply (settled_unique is_timeout s (_endpoint (self s) ++ command) (S n));
          [exact Hs | apply settled_here; [exact H0 | reflexivity]]. }
      reflexivity.
Qed.

End RequestFacts.

Lemma string_eqb_false (a b : string) : a <> b -> String.eqb a b = false.
Proof. intros H. apply String.eqb_neq. exact H. Qed.

(** C1: in a call that meets no client error, [request] returns
    [None] exactly when every GET of the budget timed out or the body
    received is empty or the literal [{"errorCode":0}]; on any other
    body it returns what [Etree.fromstring] makes of the sanitised
    body. *)
Theorem request_null_iff `{L : PyLib} (command : string) (retry : Z) (s : Sys) :
  let url := _endpoint (self s) ++ command in
  let n := budget retry in
  ~ settled is_timeout s url n GetClientError ->
  (fst (request command retry s) = Return None <->
     exhausted is_timeout s url n
     \/ settled is_timeout s url n (GetResponse EmptyString)
     \/ settled is_timeout s url n (GetResponse error_code_0))
  /\ (forall body,
        settled is_timeout s url n (GetResponse body) ->
        body <> EmptyString -> body <> error_code_0 ->
        fst (request command retry s) =
        rbind (etree_fromstring (Sanitize.escape_illegal_xml_characters body))
              (fun tree => Return (Some tree))).
Proof.
  intros url n Hno.
  assert (Hbody : forall body,
             settled is_timeout s url n (GetResponse body) ->
             body <> EmptyString -> body <> error_code_0 ->
             fst (request command retry s) =
             rbind (etree_fromstring (Sanitize.escape_illegal_xml_characters body))
                   (fun tree => Return (Some tree))).
  { intros body Hs He Hc. rewrite (request_settled command retry _ s Hs).
    rewrite (string_eqb_false _ _ He), (string_eqb_false _ _ Hc). reflexivity. }
  split; [|exact Hbody].
  destruct (exhausted_or_settled is_timeout s url n) as [Hex | [a Hs]].
  - split; [intros _; left; exact Hex | intros _; apply request_exhausted; exact Hex].
  - split.
    + intros Hnone. right.
      destruct a as [| |body|e].
      * destruct Hs as [k [_ [_ [_ Hr]]]]. discriminate.
      * contradiction.
      * destruct (String.eqb body EmptyString) eqn:He.
        { apply String.eqb_eq in He. subst body. left. exact Hs. }
        destruct (String.eqb body error_code_0) eqn:Hc.
        { apply String.eqb_eq in Hc. subst body. right. exact Hs. }
        apply String.eqb_neq in He. apply String.eqb_neq in Hc.
        rewrite (Hbody body Hs He Hc) in Hnone.
        destruct (etree_fromstring _); discriminate.
      * rewrite (request_settled command retry _ s Hs) in Hnone. discriminate.
    + intros [Hex | [He | Hc]].
      * destruct (exhausted_not_settled _ _ _ _ _ Hex Hs).
      * rewrite (request_settled command retry _ s He). reflexivity.
      * rewrite (request_settled command retry _ s Hc).
        rewrite String.eqb_refl, orb_true_r. reflexivity.
Qed.

(** A call whose first GET times out and whose second is answered with
    a body that needs sanitising. *)
Lemma request_null_iff_witness :
  let s := Sample.state (Sample.client false None)
                        [GetTimeout; GetResponse "<a>1 & 2</a>"] [] in
  ~ settled is_timeout s ("http://anna:80" ++ "/core/domain_objects") (budget 3)
      GetClientError
  /\ fst (request (L := Sample.lib) "/core/domain_objects" 3 s)
     = Return (Some (Sample.leaf "a" "1 & 2")).
Proof.
  intros s.
  assert (Hno : ~ settled is_timeout s ("http://anna:80" ++ "/core/domain_objects")
                    (budget 3) GetClientError).
  { intros [k [_ [_ [Hk _]]]]. unfold attempt_at in Hk. simpl in Hk.
    destruct k as [|[|[|k]]]; try destruct k; discriminate. }
  split; [exact Hno|].
  destruct (request_null_iff (L := Sample.lib) "/core/domain_objects" 3 s Hno)
    as [_ Hbody].
  apply (Hbody "<a>1 & 2</a>").
  - exists 1%nat. split; [unfold budget; lia|]. split; [|split; reflexivity].
    intros j Hj. replace j with 0%nat by lia. reflexivity.
  - discriminate.
  - discriminate.
Defined.

(** ** Substrings *)

Lemma prefix_append (needle after : string) :
  String.prefix needle (needle ++ after) = true.
Proof.
  induction needle as [|c needle IH]; simpl.
  - destruct after; reflexivity.
  - destruct (ascii_dec c c) as [_|Hne]; [exact IH | congruence].
Qed.

Lemma prefix_split (needle haystack : string) :
  String.prefix needle haystack = true ->
  exists after, haystack = needle ++ after.
Proof.
  revert haystack. induction needle as [|c needle IH]; intros haystack H.
  - exists haystack. reflexivity.
  - destruct haystack as [|d haystack]; simpl in H; [discriminate|].
    destruct (ascii_dec c d) as [->|_]; [|discriminate].
    destruct (IH haystack H) as [after ->]. exists after. reflexivity.
Qed.

Lemma contains_occurs (needle haystack : string) :
  contains needle haystack = true <-> occurs_in needle haystack.
Proof.
  split.
  - induction haystack as [|c haystack IH]; intros H.
    + cbn [contains] in H. rewrite orb_false_r in H.
      destruct (prefix_split _ _ H) as [after Ha].
      exists EmptyString, after. exact Ha.
    + cbn [contains] in H. apply orb_true_iff in H. destruct H as [H | H].
      * destruct (prefix_split _ _ H) as [after Ha].
        exists EmptyString, after. exact Ha.
      * destruct (IH H) as [before [after Ha]].
        exists (String c before), after. rewrite Ha. reflexivity.
  - intros [before [after ->]].
    induction before as [|c before IH].
    + change (EmptyString ++ needle ++ after) with (needle ++ after).
      destruct (needle ++ after) eqn:E; cbn [contains]; rewrite <- E;
        rewrite prefix_append; reflexivity.
    + change (String c before ++ needle ++ after)
        with (String c (before ++ needle ++ after)).
      cbn [contains]. rewrite IH. apply orb_true_r.
Qed.

(** ** [connect] *)

Lemma gets_between_get u s : gets_between s (snd (websession_get u s)) = 1.
Proof. unfold gets_between, websession_get. simpl. lia. Qed.

Lemma gets_between_trans s1 s2 s3 :
  gets_between s1 s3 = gets_between s1 s2 + gets_between s2 s3.
Proof. unfold gets_between. lia. Qed.

Lemma connect_unfold retry s :
  connect retry s =
  let url := _endpoint (self s) ++ PLUGWISE_PING_ENDPOINT in
  let s1 := snd (websession_get url s) in
  match attempt_at s url 0 with
  | GetTimeout | GetClientError =>
      if retry <? 1 then (Return false, s1)
      else connect (retry - 1) s1
  | GetResponse result =>
      if negb (contains "error" result) then (Return false, s1)
      else (Return true, s1)
  | GetUnreadable e => (Raise e, s1)
  end.
Proof.
  unfold connect, attempt_at.
  destruct (retry <? 1) eqn:Hr.
  - destruct (Z.to_nat retry); cbn [connect_rec];
      unfold bind, get_self, websession_get, ret;
      cbn [fst snd self env net gets Nat.add];
      destruct (net (env s) (length (gets (env s)))
                    (_endpoint (self s) ++ PLUGWISE_PING_ENDPOINT));
      rewrite ?Hr; try reflexivity;
      destruct (negb (contains "error" body)); reflexivity.
  - pose proof (budget_step retry Hr) as Hb. unfold budget in Hb. rewrite Hb.
    cbn [connect_rec]; unfold bind, get_self, websession_get, ret;
      cbn [fst snd self env net gets Nat.add];
      destruct (net (env s) (length (gets (env s)))
                    (_endpoint (self s) ++ PLUGWISE_PING_ENDPOINT));
      rewrite ?Hr; try reflexivity;
      destruct (negb (contains "error" body)); reflexivity.
Qed.

Lemma connect_exhausted retry : forall s,
  exhausted is_transport_error s (_endpoint (self s) ++ PLUGWISE_PING_ENDPOINT)
            (budget retry) ->
  fst (connect retry s) = Return false
  /\ gets_between s (snd (connect retry s)) = Z.of_nat (budget retry) + 1.
Proof.
  remember (budget retry) as n eqn:Hn. revert retry Hn.
  induction n as [|n IH]; intros retry Hn s Hex; rewrite connect_unfold; cbv zeta.
  - pose proof (Hex 0%nat (Nat.le_refl _)) as H0.
    destruct (retry <? 1) eqn:Hr;
      [|rewrite (budget_step retry Hr) in Hn; discriminate].
    destruct (attempt_at s (_endpoint (self s) ++ PLUGWISE_PING_ENDPOINT) 0);
      try discriminate; (split; [reflexivity | apply gets_between_get]).
  - pose proof (Hex 0%nat (Nat.le_0_l _)) as H0.
    destruct (retry <? 1) eqn:Hr;
      [rewrite (budget_none retry Hr) in Hn; discriminate|].
    rewrite (budget_step retry Hr) in Hn. injection Hn as Hn.
    set (s1 := snd (websession_get (_endpoint (self s) ++ PLUGWISE_PING_ENDPOINT) s)).
    assert (Hrec : fst (connect (retry - 1) s1) = Return false
                   /\ gets_between s1 (snd (connect (retry - 1) s1)) = Z.of_nat n + 1).
    { apply (IH (retry - 1) Hn). apply exhausted_after_get. exact Hex. }
    destruct Hrec as [Hf Hg].
    assert (Hall : fst (connect (retry - 1) s1) = Return false
                   /\ gets_between s (snd (connect (retry - 1) s1))
                      = Z.of_nat (S n) + 1).
    { split; [exact Hf|].
      rewrite (gets_between_trans s s1), Hg. unfold s1.
      rewrite gets_between_get. lia. }
    destruct (attempt_at s (_endpoint (self s) ++ PLUGWISE_PING_ENDPOINT) 0);
      try discriminate; exact Hall.
Qed.

Lemma connect_settled retry body : forall s,
  settled is_transport_error s (_endpoint (self s) ++ PLUGWISE_PING_ENDPOINT)
          (budget retry) (GetResponse body) ->
  fst (connect retry s) = Return (contains "error" body).
Proof.
  remember (budget retry) as n eqn:Hn. revert retry Hn.
  induction n as [|n IH]; intros retry Hn s Hs; rewrite connect_unfold; cbv zeta.
  - rewrite (settled_budget_0 _ _ _ _ Hs).
    destruct (contains "error" body); reflexivity.
  - destruct (attempt_at s (_endpoint (self s) ++ PLUGWISE_PING_ENDPOINT) 0) eqn:H0.
    1, 2: destruct (retry <? 1) eqn:Hr;
      [ rewrite (budget_none retry Hr) in Hn; discriminate
      | rewrite (budget_step retry Hr) in Hn; injection Hn as Hn;
        apply (IH (retry - 1) Hn); rewrite self_after_get;
        apply settled_after_get; [rewrite H0; reflexivity | exact Hs] ].
    + assert (GetResponse body = GetResponse body0) as E.
      { apply (settled_unique is_transport_error s
                 (_endpoint (self s) ++ PLUGWISE_PING_ENDPOINT) (S n));
          [exact Hs | apply settled_here; [exact H0 | reflexivity]]. }
      injection E as <-. destruct (contains "error" body); reflexivity.
    + assert (GetResponse body = GetUnreadable e) as E.
      { apply (settled_unique is_transport_error s
                 (_endpoint (self s) ++ PLUGWISE_PING_ENDPOINT) (S n));
          [exact Hs | apply settled_here; [exact H0 | reflexivity]]. }
      discriminate.
Qed.

Lemma connect_unreadable retry e : forall s,
  settled is_transport_error s (_endpoint (self s) ++ PLUGWISE_PING_ENDPOINT)
          (budget retry) (GetUnreadable e) ->
  fst (connect retry s) = Raise e.
Proof.
  remember (budget retry) as n eqn:Hn. revert retry Hn.
  induction n as [|n IH]; intros retry Hn s Hs; rewrite connect_unfold; cbv zeta.
  - rewrite (settled_budget_0 _ _ _ _ Hs). reflexivity.
  - destruct (attempt_at s (_endpoint (self s) ++ PLUGWISE_PING_ENDPOINT) 0) eqn:H0.
    1, 2: destruct (retry <? 1) eqn:Hr;
      [ rewrite (budget_none retry Hr) in Hn; discriminate
      | rewrite (budget_step retry Hr) in Hn; injection Hn as Hn;
        apply (IH (retry - 1) Hn); rewrite self_after_get;
        apply settled_after_get; [rewrite H0; reflexivity | exact Hs] ].
    + assert (GetUnreadable e = GetResponse body) as E.
      { apply (settled_unique is_transport_error s
                 (_endpoint (self s) ++ PLUGWISE_PING_ENDPOINT) (S n));
          [exact Hs | apply settled_here; [exact H0 | reflexivity]]. }
      discriminate.
    + assert (GetUnreadable e = GetUnreadable e0) as E.
      { apply (settled_unique is_transport_error s
                 (_endpoint (self s) ++ PLUGWISE_PING_ENDPOINT) (S n));
          [exact Hs | apply settled_here; [exact H0 | reflexivity]]. }
      injection E as <-. reflexivity.
Qed.

(** C9 fails on the code: the text of the response is read outside the
    [try] block, so when a GET is answered by a response whose text
    cannot be read, [connect] raises what the reading raised. *)
Lemma connect_raises_on_unreadable_body :
  fst (connect 2 Scenario.unreadable_ping) = Raise UnicodeDecodeError
  /\ fst (connect 2 Scenario.unreadable_ping) <> Return true
  /\ fst (connect 2 Scenario.unreadable_ping) <> Return false.
Proof. split; [reflexivity | split; vm_compute; discriminate]. Qed.

(** C9 (as the code has it): [connect] catches the errors of the GET
    itself.  When every GET of the budget fails (by timeout or client
    error) it returns false after [budget + 1] GETs; when a GET is
    answered and its text read, it returns false if the text lacks the
    substring [error] and true if the text contains it, and it returns
    true in no other case.  It raises exactly when the response that
    answers has a text whose reading raises, and then it raises that
    exception. *)
Theorem connect_outcomes (retry : Z) (s : Sys) :
  let url := _endpoint (self s) ++ PLUGWISE_PING_ENDPOINT in
  let n := budget retry in
  (exhausted is_transport_error s url n ->
   fst (connect retry s) = Return false
   /\ gets_between s (snd (connect retry s)) = Z.of_nat n + 1)
  /\ (forall body,
        settled is_transport_error s url n (GetResponse body) ->
        ~ occurs_in "error" body -> fst (connect retry s) = Return false)
  /\ (fst (connect retry s) = Return true <->
      exists body,
        settled is_transport_error s url n (GetResponse body)
        /\ occurs_in "error" body)
  /\ (forall e,
        fst (connect retry s) = Raise e <->
        settled is_transport_error s url n (GetUnreadable e)).
Proof.
  intros url n.
  destruct (exhausted_or_settled is_transport_error s url n) as [Hex | [a Hs]].
  - destruct (connect_exhausted retry s Hex) as [Hf Hg].
    split; [intros _; split; [exact Hf | exact Hg]|].
    split; [intros body Hs; destruct (exhausted_not_settled _ _ _ _ _ Hex Hs)|].
    split.
    + split; [rewrite Hf; discriminate|].
      intros [body [Hs _]]. destruct (exhausted_not_settled _ _ _ _ _ Hex Hs).
    + intros e. split; [rewrite Hf; discriminate|].
      intros Hs. destruct (exhausted_not_settled _ _ _ _ _ Hex Hs).
  - split; [intros Hex; destruct (exhausted_not_settled _ _ _ _ _ Hex Hs)|].
    destruct a as [| |body|e];
      try (destruct Hs as [k [_ [_ [_ Hr]]]]; discriminate).
    + pose proof (connect_settled retry body s Hs) as Hf.
      split.
      { intros body' Hs' Hno.
        assert (E : GetResponse body' = GetResponse body)
          by (eapply settled_unique; eassumption).
        injection E as ->. rewrite Hf.
        destruct (contains "error" body) eqn:Hc; [|reflexivity].
        apply contains_occurs in Hc. contradiction. }
      split.
      { split.
        - intros Ht. rewrite Hf in Ht. injection Ht as Hc.
          exists body. split; [exact Hs | apply contains_occurs; exact Hc].
        - intros [body' [Hs' Hocc]].
          assert (E : GetResponse body' = GetResponse body)
            by (eapply settled_unique; eassumption).
          injection E as ->. rewrite Hf. f_equal.
          apply contains_occurs. exact Hocc. }
      intros e. split; [rewrite Hf; discriminate|].
      intros Hs'.
      assert (E : GetUnreadable e = GetResponse body)
        by (eapply settled_unique; eassumption).
      discriminate.
    + pose proof (connect_unreadable retry e s Hs) as Hf.
      split.
      { intros body Hs' _.
        assert (E : GetResponse body = GetUnreadable e)
          by (eapply settled_unique; eassumption).
        discriminate. }
      split.
      { split; [rewrite Hf; discriminate|].
        intros [body [Hs' _]].
        assert (E : GetResponse body = GetUnreadable e)
          by (eapply settled_unique; eassumption).
        discriminate. }
      intros e'. split.
      * intros Hr. rewrite Hf in Hr. injection Hr as <-. exact Hs.
      * intros Hs'.
        assert (E : GetUnreadable e' = GetUnreadable e)
          by (eapply settled_unique; eassumption).
        injection E as ->. exact Hf.
Qed.

(** ** Refreshing the snapshot *)

Section RefreshFacts.
Context {L : PyLib}.

(** [request] leaves the client alone and only adds GETs of its URL to
    the log. *)
Lemma request_frame command retry : forall s,
  let s' := snd (request command retry s) in
  self s' = self s
  /\ net (env s') = net (env s)
  /\ clock (env s') = clock (env s)
  /\ ticks (env s') = ticks (env s)
  /\ exists k, (1 <= k <= S (budget retry))%nat
               /\ gets (env s')
                  = List.app (repeat (_endpoint (self s) ++ command) k) (gets (env s)).
Proof.
  remember (budget retry) as n eqn:Hn. revert retry Hn.
  assert (Hone : forall s (r : result (option Etree.Element)) m,
             let s' := snd (r, snd (websession_get (_endpoint (self s) ++ command) s)) in
             self s' = self s
             /\ net (env s') = net (env s)
             /\ clock (env s') = clock (env s)
             /\ ticks (env s') = ticks (env s)
             /\ exists k, (1 <= k <= S m)%nat
                  /\ gets (env s')
                     = List.app (repeat (_endpoint (self s) ++ command) k)
                                (gets (env s))).
  { intros s r m. cbn. repeat split. exists 1%nat. split; [lia | reflexivity]. }
  induction n as [|n IH]; intros retry Hn s; rewrite request_unfold; cbv zeta.
  - destruct (attempt_at s (_endpoint (self s) ++ command) 0);
      [destruct (retry <? 1) eqn:Hr | | destruct (_ || _) | ]; try apply Hone.
    rewrite (budget_step retry Hr) in Hn. discriminate.
  - destruct (attempt_at s (_endpoint (self s) ++ command) 0);
      [destruct (retry <? 1) eqn:Hr | | destruct (_ || _) | ]; try apply Hone.
    rewrite (budget_step retry Hr) in Hn. injection Hn as Hn.
    specialize (IH (retry - 1) Hn
                   (snd (websession_get (_endpoint (self s) ++ command) s))).
    cbv zeta in IH. rewrite self_after_get in IH.
    destruct IH as (Hs & Hnet & Hc & Ht & k & Hk & Hg).
    repeat split; try assumption.
    exists (S k). split; [lia|]. rewrite Hg. cbn [websession_get snd env gets].
    cbn [repeat]. rewrite repeat_cons, <- app_assoc. reflexivity.
Qed.

Lemma update_domain_objects_eq s :
  update_domain_objects s =
  match request PLUGWISE_DOMAIN_OBJECTS_ENDPOINT 3 s with
  | (Return r, s') =>
      (Return r,
       mkSys (mkPlugwise (_legacy_anna (self s')) (_endpoint (self s'))
                         (_throttle_time (self s')) r)
             (env s'))
  | (Raise e, s') => (Raise e, s')
  end.
Proof.
  unfold update_domain_objects, bind.
  destruct (request PLUGWISE_DOMAIN_OBJECTS_ENDPOINT 3 s) as [[r|e] s']; reflexivity.
Qed.

(** What [update_domain_objects] stores: the value that [request]
    returned; when [request] raises, the snapshot stays. *)
Lemma update_domain_objects_stores s :
  match fst (request PLUGWISE_DOMAIN_OBJECTS_ENDPOINT 3 s) with
  | Return r =>
      fst (update_domain_objects s) = Return r
      /\ _domain_objects (self (snd (update_domain_objects s))) = r
  | Raise e =>
      fst (update_domain_objects s) = Raise e
      /\ _domain_objects (self (snd (update_domain_objects s))) = _domain_objects (self s)
  end.
Proof.
  rewrite update_domain_objects_eq.
  pose proof (request_frame PLUGWISE_DOMAIN_OBJECTS_ENDPOINT 3 s) as Hf.
  cbv zeta in Hf. destruct Hf as [Hself _].
  destruct (request PLUGWISE_DOMAIN_OBJECTS_ENDPOINT 3 s) as [[r|e] s'];
    cbn in *; split; try reflexivity.
  rewrite Hself. reflexivity.
Qed.

(** [update_domain_objects] is a fetch; it keeps the flag, the endpoint,
    the throttle timestamp and the clock. *)
Lemma update_domain_objects_frame s :
  let s' := snd (update_domain_objects s) in
  fetched s s'
  /\ _throttle_time (self s') = _throttle_time (self s)
  /\ _endpoint (self s') = _endpoint (self s)
  /\ clock (env s') = clock (env s)
  /\ ticks (env s') = ticks (env s).
Proof.
  rewrite update_domain_objects_eq.
  pose proof (request_frame PLUGWISE_DOMAIN_OBJECTS_ENDPOINT 3 s) as Hf.
  cbv zeta in Hf. destruct Hf as (Hself & _ & Hc & Ht & k & Hk & Hg).
  unfold fetched.
  destruct (request PLUGWISE_DOMAIN_OBJECTS_ENDPOINT 3 s) as [[r|e] s'];
    cbn in *; rewrite ?Hself; repeat split; try assumption;
    exists k; (split; [unfold budget in Hk; lia | exact Hg]).
Qed.

End RefreshFacts.

(** C2 (as the code has it): when the fetch returns [None],
    [update_domain_objects] returns [None] and stores [None]; the
    snapshot held before is gone. *)
Theorem update_domain_objects_stores_null `{L : PyLib} (s : Sys) :
  fst (request PLUGWISE_DOMAIN_OBJECTS_ENDPOINT 3 s) = Return None ->
  fst (update_domain_objects s) = Return None
  /\ _domain_objects (self (snd (update_domain_objects s))) = None.
Proof.
  intros H. pose proof (update_domain_objects_stores s) as Hs.
  rewrite H in Hs. exact Hs.
Qed.

Lemma update_domain_objects_stores_null_witness :
  fst (request (L := Sample.lib) PLUGWISE_DOMAIN_OBJECTS_ENDPOINT 3 Sample.failing_fetch)
  = Return None
  /\ fst (update_domain_objects (L := Sample.lib) Sample.failing_fetch) = Return None
  /\ _domain_objects
       (self (snd (update_domain_objects (L := Sample.lib) Sample.failing_fetch)))
     = None.
Proof.
  split; [reflexivity|].
  apply (update_domain_objects_stores_null (L := Sample.lib) Sample.failing_fetch).
  reflexivity.
Defined.

(** C2 fails on the code: a client that holds a snapshot and whose
    fetch meets a client error holds no snapshot after
    [update_domain_objects]. *)
Lemma update_domain_objects_drops_snapshot :
  _domain_objects (self Sample.failing_fetch) = Some Sample.module_snapshot
  /\ fst (request (L := Sample.lib) PLUGWISE_DOMAIN_OBJECTS_ENDPOINT 3 Sample.failing_fetch)
     = Return None
  /\ _domain_objects
       (self (snd (update_domain_objects (L := Sample.lib) Sample.failing_fetch)))
     <> _domain_objects (self Sample.failing_fetch).
Proof.
  split; [reflexivity|]. split; [reflexivity|].
  vm_compute. discriminate.
Qed.

(** ** The throttle *)

Section ThrottleFacts.
Context {L : PyLib}.

Lemma refresh_now_frame s :
  let s' := snd (refresh_now s) in
  fetched s s'
  /\ _throttle_time (self s') = Some (reading s)
  /\ clock (env s') = clock (env s)
  /\ ticks (env s') = S (ticks (env s)).
Proof.
  unfold refresh_now, bind, now, set_throttle_time, ret.
  cbn [fst snd].
  match goal with
  | |- context [update_domain_objects ?st] =>
      pose proof (update_domain_objects_frame st) as Hf; cbv zeta in Hf;
      destruct (update_domain_objects st) as [[r|e] s']
  end; cbn [fst snd self env _throttle_time _endpoint clock ticks gets] in *;
    destruct Hf as (Hfe & Ht & He & Hc & Hk);
    (repeat split; [exact Hfe | exact Ht | exact Hc | exact Hk]).
Qed.

Lemma throttle_held s last :
  _throttle_time (self s) = Some last ->
  reading s - last < MIN_TIME_BETWEEN_UPDATES ->
  throttle_update_domain_objects s = (Return tt, snd (now s)).
Proof.
  intros Hl Hlt. unfold throttle_update_domain_objects, bind, get_self.
  cbn [fst snd]. rewrite Hl. unfold now at 1. cbn [fst snd].
  apply Z.ltb_lt in Hlt. unfold reading in Hlt. rewrite Hlt. reflexivity.
Qed.

Lemma throttle_passed_eq s :
  unthrottled s ->
  throttle_update_domain_objects s =
  refresh_now (match _throttle_time (self s) with
               | None => s
               | Some _ => snd (now s)
               end).
Proof.
  unfold unthrottled, throttle_update_domain_objects, bind, get_self.
  cbn [fst snd]. destruct (_throttle_time (self s)) as [last|]; [|reflexivity].
  intros Hun. unfold now. cbn [fst snd].
  apply Z.ltb_ge in Hun. unfold reading in Hun. rewrite Hun. reflexivity.
Qed.

Lemma throttle_passed s :
  unthrottled s ->
  let s' := snd (throttle_update_domain_objects s) in
  fetched s s'
  /\ (exists t, _throttle_time (self s') = Some t)
  /\ clock (env s') = clock (env s).
Proof.
  intros Hun. rewrite (throttle_passed_eq s Hun).
  destruct (_throttle_time (self s)) as [last|].
  - pose proof (refresh_now_frame (snd (now s))) as Hf. cbv zeta in Hf.
    destruct Hf as (Hfe & Ht & Hc & _).
    cbv zeta. split; [exact Hfe|]. split; [eexists; exact Ht | exact Hc].
  - pose proof (refresh_now_frame s) as Hf. cbv zeta in Hf.
    destruct Hf as (Hfe & Ht & Hc & _).
    cbv zeta. split; [exact Hfe|]. split; [eexists; exact Ht | exact Hc].
Qed.

End ThrottleFacts.

(** C4: take two calls of [throttle_update_domain_objects] in a row, the
    first of which is not held back and so fetches and records a
    timestamp [t1].  If the clock reading of the second call is less
    than two seconds past [t1], the second call returns at once: it
    issues no GET and leaves the snapshot and the timestamp as they
    were, so the pair made one fetch.  If the reading is two seconds or
    more past [t1], the second call fetches as well. *)
Theorem throttle_pair `{L : PyLib} (s0 : Sys) :
  unthrottled s0 ->
  let s1 := snd (throttle_update_domain_objects s0) in
  let s2 := snd (throttle_update_domain_objects s1) in
  fetched s0 s1
  /\ exists t1,
       _throttle_time (self s1) = Some t1
       /\ (reading s1 - t1 < MIN_TIME_BETWEEN_UPDATES ->
           fst (throttle_update_domain_objects s1) = Return tt
           /\ gets (env s2) = gets (env s1)
           /\ _domain_objects (self s2) = _domain_objects (self s1)
           /\ _throttle_time (self s2) = Some t1)
       /\ (MIN_TIME_BETWEEN_UPDATES <= reading s1 - t1 -> fetched s1 s2).
Proof.
  intros Hun s1 s2.
  destruct (throttle_passed s0 Hun) as (Hf & [t1 Ht1] & _).
  fold s1 in Hf, Ht1.
  split; [exact Hf|]. exists t1. split; [exact Ht1|]. split.
  - intros Hlt. unfold s2. rewrite (throttle_held s1 t1 Ht1 Hlt).
    cbn [fst snd now self env gets]. repeat split. exact Ht1.
  - intros Hge.
    assert (Hun1 : unthrottled s1) by (unfold unthrottled; rewrite Ht1; exact Hge).
    destruct (throttle_passed s1 Hun1) as (Hf1 & _). exact Hf1.
Qed.

Lemma throttle_pair_witness :
  unthrottled (Sample.polled_twice 1500000)
  /\ gets (env (snd (throttle_update_domain_objects (L := Sample.lib)
                      (snd (throttle_update_domain_objects (L := Sample.lib)
                              (Sample.polled_twice 1500000))))))
     = gets (env (snd (throttle_update_domain_objects (L := Sample.lib)
                         (Sample.polled_twice 1500000)))).
Proof.
  split; [exact I|].
  destruct (throttle_pair (L := Sample.lib) (Sample.polled_twice 1500000) I)
    as (_ & t1 & Ht1 & Hheld & _).
  assert (E : t1 = 0) by (vm_compute in Ht1; congruence).
  subst t1.
  assert (Hlt : reading (snd (throttle_update_domain_objects (L := Sample.lib)
                                (Sample.polled_twice 1500000))) - 0
                < MIN_TIME_BETWEEN_UPDATES) by (vm_compute; reflexivity).
  exact (proj1 (proj2 (Hheld Hlt))).
Defined.

(** Polled again after 1.999999 s, the client has issued one GET; polled
    again after 2 s, it has issued two. *)
Example throttle_scenario :
  let twice s :=
    snd (throttle_update_domain_objects (L := Sample.lib)
           (snd (throttle_update_domain_objects (L := Sample.lib) s))) in
  length (gets (env (twice (Sample.polled_twice 1999999)))) = 1%nat
  /\ length (gets (env (twice (Sample.polled_twice 2000000)))) = 2%nat.
Proof. split; vm_compute; reflexivity. Qed.

(** ** Queries on the snapshot *)

Lemma flat_map_nested {A B C : Type} (f : A -> list B) (g : B -> list C) (l : list A) :
  flat_map g (flat_map f l) = flat_map (fun x => flat_map g (f x)) l.
Proof.
  induction l as [|x l IH]; [reflexivity|].
  cbn [flat_map]. rewrite flat_map_app, IH. reflexivity.
Qed.

Lemma filter_filter {A : Type} (f g : A -> bool) (l : list A) :
  List.filter f (List.filter g l) = List.filter (fun x => g x && f x) l.
Proof.
  induction l as [|x l IH]; [reflexivity|].
  cbn [List.filter]. destruct (g x); cbn [List.filter andb]; rewrite IH; reflexivity.
Qed.

Lemma existsb_filter {A : Type} (f g : A -> bool) (l : list A) :
  existsb f (List.filter g l) = existsb (fun x => g x && f x) l.
Proof.
  induction l as [|x l IH]; [reflexivity|].
  cbn [List.filter existsb]. destruct (g x); cbn [existsb andb orb]; rewrite IH; reflexivity.
Qed.

Lemma filter_ext_bool {A : Type} (f g : A -> bool) (l : list A) :
  (forall x, f x = g x) -> List.filter f l = List.filter g l.
Proof.
  intros H. induction l as [|x l IH]; [reflexivity|].
  cbn [List.filter]. rewrite H, IH. reflexivity.
Qed.

Section QueryFacts.
Context {L : PyLib}.

(** The path of the legacy preset selects the [then] directives of the
    active rules. *)
Lemma iterfind_active_rule xmldata :
  Etree.compile "rule[active='true']/directives/when/then"
  = Some [Etree.Child "rule"; Etree.ChildTextEq "active" "true";
          Etree.Child "directives"; Etree.Child "when"; Etree.Child "then"]
  /\ Etree.iterfind_steps xmldata
       [Etree.Child "rule"; Etree.ChildTextEq "active" "true";
        Etree.Child "directives"; Etree.Child "when"; Etree.Child "then"]
     = active_then_directives xmldata.
Proof.
  split; [reflexivity|].
  unfold Etree.iterfind_steps, active_then_directives.
  cbn [fold_left Etree.select flat_map]. rewrite app_nil_r.
  rewrite filter_filter.
  rewrite (filter_ext_bool _ marked_active).
  - rewrite !flat_map_nested. reflexivity.
  - intros r. unfold marked_active. rewrite existsb_filter. reflexivity.
Qed.

Lemma get_current_preset_legacy me xmldata :
  _legacy_anna me = true ->
  _domain_objects me = Some xmldata ->
  get_current_preset me =
  Return (Some match head (active_then_directives xmldata) with
               | None => "none"
               | Some directive =>
                   match Etree.attrib directive !! "icon" with
                   | None => "none"
                   | Some icon => icon
                   end
               end).
Proof.
  intros Hl Hd. unfold get_current_preset, domain_objects, find.
  rewrite Hl, Hd. cbn [rbind].
  destruct (iterfind_active_rule xmldata) as [Hc Hi].
  rewrite Hc. cbn [rbind]. unfold Etree.find_steps. rewrite Hi.
  destruct (head (active_then_directives xmldata)) as [directive|]; [|reflexivity].
  destruct (Etree.attrib directive !! "icon"); reflexivity.
Qed.

End QueryFacts.

(** C8: with the legacy flag set, [get_current_preset] returns the
    string [none] when no rule of the snapshot is marked active, when
    the active rules hold no [then] directive, and when the first such
    directive has no [icon] attribute; otherwise it returns the value
    of that directive's [icon] attribute. *)
Theorem legacy_preset `{L : PyLib} (me : Plugwise) (xmldata : Etree.Element) :
  _legacy_anna me = true ->
  _domain_objects me = Some xmldata ->
  ((forall r, In r (Etree.children xmldata) -> marked_active r = false) ->
   get_current_preset me = Return (Some "none"))
  /\ (active_then_directives xmldata = [] ->
      get_current_preset me = Return (Some "none"))
  /\ (forall directive,
        head (active_then_directives xmldata) = Some directive ->
        Etree.attrib directive !! "icon" = None ->
        get_current_preset me = Return (Some "none"))
  /\ (forall directive icon,
        head (active_then_directives xmldata) = Some directive ->
        Etree.attrib directive !! "icon" = Some icon ->
        get_current_preset me = Return (Some icon)).
Proof.
  intros Hl Hd. rewrite (get_current_preset_legacy me xmldata Hl Hd).
  assert (Hempty : active_then_directives xmldata = [] ->
                   Return (Some match head (active_then_directives xmldata) with
                                | None => "none"
                                | Some directive =>
                                    match Etree.attrib directive !! "icon" with
                                    | None => "none"
                                    | Some icon => icon
                                    end
                                end) = Return (A := option string) (Some "none")).
  { intros ->. reflexivity. }
  split; [|split; [exact Hempty|split]].
  - intros Hnone. apply Hempty. unfold active_then_directives.
    replace (List.filter marked_active (Etree.children xmldata)) with (@nil Etree.Element);
      [reflexivity|].
    symmetry. induction (Etree.children xmldata) as [|r l IH]; [reflexivity|].
    cbn [List.filter]. rewrite (Hnone r (or_introl eq_refl)).
    apply IH. intros r' Hr'. apply Hnone. right. exact Hr'.
  - intros directive -> ->. reflexivity.
  - intros directive icon -> ->. reflexivity.
Qed.

Lemma legacy_preset_witness :
  _legacy_anna (Sample.client true (Some Sample.rules_snapshot)) = true
  /\ _domain_objects (Sample.client true (Some Sample.rules_snapshot))
     = Some Sample.rules_snapshot
  /\ get_current_preset (L := Sample.lib) (Sample.client true (Some Sample.rules_snapshot))
     = Return (Some "home").
Proof.
  split; [reflexivity|]. split; [reflexivity|].
  destruct (legacy_preset (L := Sample.lib)
              (Sample.client true (Some Sample.rules_snapshot))
              Sample.rules_snapshot eq_refl eq_refl) as (_ & _ & _ & Hicon).
  apply (Hicon (Sample.node "then" {[ "icon" := "home" ]} [])); reflexivity.
Defined.

(** C5 fails on the code: for the snapshot that consists of the one
    thermostat appliance, the point-log id is looked up under
    [module/services], finds nothing, and the getter returns [None]. *)
Lemma current_temperature_of_appliance_snapshot :
  get_current_temperature (L := Sample.lib)
    (Sample.client false (Some Sample.appliance_snapshot)) = Return None
  /\ get_current_temperature (L := Sample.lib)
       (Sample.client false (Some Sample.appliance_snapshot))
     <> Return (Some Sample.f19_5).
Proof. split; [reflexivity | vm_compute; discriminate]. Qed.

(** C5 (as the code has it): when the snapshot holds, besides the
    thermostat appliance with point log 42 and measurement 19.5, the
    module whose temperature service refers to point log 42,
    [get_current_temperature] returns [float("19.5")]. *)
Theorem current_temperature_of_module_snapshot
    `{L : PyLib} (me : Plugwise) (v : float_t) :
  _domain_objects me = Some Sample.module_snapshot ->
  py_float "19.5" = Some v ->
  get_current_temperature me = Return (Some v).
Proof.
  intros Hd Hv. unfold get_current_temperature, domain_objects. rewrite Hd.
  cbn [rbind].
  replace (get_point_log_id Sample.module_snapshot "temperature")
    with (Return (Some "42")) by (vm_compute; reflexivity).
  cbn [rbind].
  replace (get_measurement_from_point_log Sample.module_snapshot "42")
    with (Return (Some "19.5")) by (vm_compute; reflexivity).
  cbn [rbind]. unfold float. rewrite Hv. reflexivity.
Qed.

Lemma current_temperature_of_module_snapshot_witness :
  py_float (PyLib := Sample.lib) "19.5" = Some Sample.f19_5
  /\ get_current_temperature (L := Sample.lib)
       (Sample.client false (Some Sample.module_snapshot))
     = Return (Some Sample.f19_5).
Proof.
  split; [vm_compute; reflexivity|].
  apply (current_temperature_of_module_snapshot (L := Sample.lib)).
  - reflexivity.
  - vm_compute. reflexivity.
Defined.

(** C6 fails on the code: the id that [get_point_log_id] finds may be
    the empty string; the getter then takes it as absent and returns
    [None] without asking for the measurement. *)
Lemma current_temperature_of_empty_id :
  get_point_log_id (L := Sample.lib) (Sample.dangling_pair "") "temperature"
  = Return (Some "")
  /\ get_measurement_from_point_log (L := Sample.lib) (Sample.dangling_pair "") ""
     = Return None
  /\ get_current_temperature (L := Sample.lib)
       (Sample.client false (Some (Sample.dangling_pair ""))) = Return None.
Proof. repeat split; vm_compute; reflexivity. Qed.

(** C6 (as the code has it): when [get_point_log_id] finds a non-empty
    id for [temperature] and [get_measurement_from_point_log] returns
    [None] for it, [get_current_temperature] raises [TypeError], the
    coercion of [None]; in the same situation for
    [schedule_temperature], [get_schedule_temperature] returns [None]. *)
Theorem current_temperature_unguarded
    `{L : PyLib} (me : Plugwise) (xmldata : Etree.Element) :
  _domain_objects me = Some xmldata ->
  (forall id,
     id <> EmptyString ->
     get_point_log_id xmldata "temperature" = Return (Some id) ->
     get_measurement_from_point_log xmldata id = Return None ->
     get_current_temperature me = Raise TypeError)
  /\ (forall id,
        get_point_log_id xmldata "schedule_temperature" = Return (Some id) ->
        get_measurement_from_point_log xmldata id = Return None ->
        get_schedule_temperature me = Return None).
Proof.
  intros Hd. split.
  - intros id Hne Hid Hm.
    unfold get_current_temperature, domain_objects. rewrite Hd. cbn [rbind].
    rewrite Hid. cbn [rbind].
    destruct id as [|c id]; [congruence|].
    rewrite Hm. reflexivity.
  - intros id Hid Hm.
    unfold get_schedule_temperature, domain_objects. rewrite Hd. cbn [rbind].
    rewrite Hid. cbn [rbind].
    destruct id as [|c id]; [reflexivity|].
    rewrite Hm. reflexivity.
Qed.

Lemma current_temperature_unguarded_witness :
  _domain_objects (Sample.client false (Some (Sample.dangling_pair "42")))
  = Some (Sample.dangling_pair "42")
  /\ get_current_temperature (L := Sample.lib)
       (Sample.client false (Some (Sample.dangling_pair "42"))) = Raise TypeError
  /\ get_schedule_temperature (L := Sample.lib)
       (Sample.client false (Some (Sample.dangling_pair "42"))) = Return None.
Proof.
  split; [reflexivity|].
  destruct (current_temperature_unguarded (L := Sample.lib)
              (Sample.client false (Some (Sample.dangling_pair "42")))
              (Sample.dangling_pair "42") eq_refl) as [Hcur Hsched].
  split.
  - apply (Hcur "42"); [discriminate | reflexivity | reflexivity].
  - apply (Hsched "42"); reflexivity.
Defined.

(** C7 fails on the code: an id is found for [temperature], a
    measurement text is located under it and reads as 19.5, and yet the
    getter returns [None], because the id is the empty string. *)
Lemma current_temperature_ignores_empty_id :
  get_point_log_id (L := Sample.lib) Sample.empty_id_snapshot "temperature"
  = Return (Some "")
  /\ get_measurement_from_point_log (L := Sample.lib) Sample.empty_id_snapshot ""
     = Return (Some "19.5")
  /\ py_float (PyLib := Sample.lib) "19.5" = Some Sample.f19_5
  /\ get_current_temperature (L := Sample.lib)
       (Sample.client false (Some Sample.empty_id_snapshot)) = Return None.
Proof. repeat split; vm_compute; reflexivity. Qed.

(** C7 (as the code has it): each of the two temperature getters
    returns [None] when [get_point_log_id] finds no id for its log type,
    and returns the number that [float] reads from the measurement text
    when the id found is not empty and a measurement text is located
    for it. *)
Theorem temperatures_parse_measurement
    `{L : PyLib} (me : Plugwise) (xmldata : Etree.Element) :
  _domain_objects me = Some xmldata ->
  (get_point_log_id xmldata "temperature" = Return None ->
   get_current_temperature me = Return None)
  /\ (get_point_log_id xmldata "schedule_temperature" = Return None ->
      get_schedule_temperature me = Return None)
  /\ (forall id text v,
        id <> EmptyString ->
        get_point_log_id xmldata "temperature" = Return (Some id) ->
        get_measurement_from_point_log xmldata id = Return (Some text) ->
        py_float text = Some v ->
        get_current_temperature me = Return (Some v))
  /\ (forall id text v,
        id <> EmptyString ->
        get_point_log_id xmldata "schedule_temperature" = Return (Some id) ->
        get_measurement_from_point_log xmldata id = Return (Some text) ->
        py_float text = Some v ->
        get_schedule_temperature me = Return (Some v)).
Proof.
  intros Hd.
  unfold get_current_temperature, get_schedule_temperature, domain_objects.
  rewrite Hd. cbn [rbind].
  split; [intros ->; reflexivity|]. split; [intros ->; reflexivity|]. split.
  - intros id text v Hne -> Hm Hv. cbn [rbind].
    destruct id as [|c id]; [congruence|].
    rewrite Hm. cbn [rbind]. unfold float. rewrite Hv. reflexivity.
  - intros id text v Hne -> Hm Hv. cbn [rbind].
    destruct id as [|c id]; [congruence|].
    rewrite Hm. cbn [rbind].
    destruct text as [|d text]; [rewrite py_float_empty in Hv; discriminate|].
    cbn [truthy]. unfold float. rewrite Hv. reflexivity.
Qed.

Lemma temperatures_parse_measurement_witness :
  _domain_objects (Sample.client false (Some Sample.module_snapshot))
  = Some Sample.module_snapshot
  /\ get_current_temperature (L := Sample.lib)
       (Sample.client false (Some Sample.module_snapshot))
     = Return (Some Sample.f19_5)
  /\ get_schedule_temperature (L := Sample.lib)
       (Sample.client false (Some Sample.module_snapshot))
     = Return None.
Proof.
  split; [reflexivity|].
  destruct (temperatures_parse_measurement (L := Sample.lib)
              (Sample.client false (Some Sample.module_snapshot))
              Sample.module_snapshot eq_refl) as (_ & Hnone & Hcur & _).
  split.
  - apply (Hcur "42" "19.5");
      [discriminate | reflexivity | reflexivity | vm_compute; reflexivity].
  - apply Hnone. reflexivity.
Defined.

(** ** Locators with an interpolated value

    A value without a single quote lands in the predicate as it is. *)

Lemma take_quoted_value (v rest : string) :
  Etree.quote_free v = true ->
  Etree.take_quoted (v ++ String "'"%char rest) = Some (v, rest).
Proof.
  induction v as [|c v IH]; intros H.
  - reflexivity.
  - cbn [Etree.quote_free] in H. apply andb_true_iff in H. destruct H as [Hc Hv].
    change (String c v ++ String "'"%char rest) with (String c (v ++ String "'"%char rest)).
    cbn [Etree.take_quoted]. apply negb_true_iff in Hc. rewrite Hc.
    rewrite (IH Hv). reflexivity.
Qed.

Lemma parse_steps_more fuel s t r ps r' rest :
  Etree.parse_tag s = Some (t, r) ->
  Etree.parse_predicates fuel r = Some (ps, String "/"%char r') ->
  Etree.parse_steps fuel r' = Some rest ->
  Etree.parse_steps (S fuel) s = Some (t :: ps ++ rest)%list.
Proof.
  intros Ht Hp Hr. cbn [Etree.parse_steps]. rewrite Ht, Hp, Hr. reflexivity.
Qed.

Lemma parse_predicates_one fuel r p r1 :
  Etree.parse_predicate r = Some (p, r1) ->
  Etree.parse_predicates fuel r1 = Some ([], r1) ->
  Etree.parse_predicates (S fuel) (String "["%char r) = Some ([p], r1).
Proof.
  intros Hp Hn. cbn [Etree.parse_predicates]. rewrite Hp, Hn. reflexivity.
Qed.

Lemma take_value_quoted (v rest : string) :
  Etree.quote_free v = true ->
  Etree.take_value
    (String "="%char (String "'"%char (v ++ String "'"%char (String "]"%char rest))))
  = Some (v, rest).
Proof.
  intros H. unfold Etree.take_value.
  rewrite (take_quoted_value v (String "]"%char rest) H). reflexivity.
Qed.

Lemma compile_measurement_locator (point_log_id : string) :
  Etree.quote_free point_log_id = true ->
  Etree.compile ("*/logs/point_log[@id='" ++ point_log_id ++ "']/period/measurement")
  = Some [Etree.Star; Etree.Child "logs"; Etree.Child "point_log";
          Etree.AttrEq "id" point_log_id;
          Etree.Child "period"; Etree.Child "measurement"].
Proof.
  intros H. unfold Etree.compile.
  pose proof (take_value_quoted point_log_id "/period/measurement" H) as Hv.
  remember (point_log_id ++ "']/period/measurement") as behind eqn:Hb.
  change (String.length ("*/logs/point_log[@id='" ++ behind))
    with (22 + String.length behind)%nat.
  apply (parse_steps_more _ _ Etree.Star ("/logs/point_log[@id='" ++ behind) []
           ("logs/point_log[@id='" ++ behind)); [reflexivity | reflexivity |].
  apply (parse_steps_more _ _ (Etree.Child "logs") ("/point_log[@id='" ++ behind) []
           ("point_log[@id='" ++ behind)); [reflexivity | reflexivity |].
  apply (parse_steps_more _ _ (Etree.Child "point_log") ("[@id='" ++ behind)
           [Etree.AttrEq "id" point_log_id] "period/measurement");
    [reflexivity | | reflexivity].
  apply (parse_predicates_one _ ("@id='" ++ behind)); [|reflexivity].
  unfold Etree.parse_predicate.
  change ("@id='" ++ behind) with (String "@"%char ("id='" ++ behind)).
  cbv beta iota.
  change (Etree.take_name ("id='" ++ behind))
    with ("id", String "="%char (String "'"%char behind)).
  cbv beta iota zeta. change (Etree.valid_name "id") with true. cbv iota.
  rewrite Hv. reflexivity.
Qed.

Lemma compile_point_log_id_locator (log_type : string) :
  Etree.quote_free log_type = true ->
  Etree.compile
    ("module/services/*[@log_type='" ++ log_type ++ "']/functionalities/point_log")
  = Some [Etree.Child "module"; Etree.Child "services"; Etree.Star;
          Etree.AttrEq "log_type" log_type;
          Etree.Child "functionalities"; Etree.Child "point_log"].
Proof.
  intros H. unfold Etree.compile.
  pose proof (take_value_quoted log_type "/functionalities/point_log" H) as Hv.
  remember (log_type ++ "']/functionalities/point_log") as behind eqn:Hb.
  change (String.length ("module/services/*[@log_type='" ++ behind))
    with (29 + String.length behind)%nat.
  apply (parse_steps_more _ _ (Etree.Child "module")
           ("/services/*[@log_type='" ++ behind) []
           ("services/*[@log_type='" ++ behind)); [reflexivity | reflexivity |].
  apply (parse_steps_more _ _ (Etree.Child "services") ("/*[@log_type='" ++ behind) []
           ("*[@log_type='" ++ behind)); [reflexivity | reflexivity |].
  apply (parse_steps_more _ _ Etree.Star ("[@log_type='" ++ behind)
           [Etree.AttrEq "log_type" log_type] "functionalities/point_log");
    [reflexivity | | reflexivity].
  apply (parse_predicates_one _ ("@log_type='" ++ behind)); [|reflexivity].
  unfold Etree.parse_predicate.
  change ("@log_type='" ++ behind) with (String "@"%char ("log_type='" ++ behind)).
  cbv beta iota.
  change (Etree.take_name ("log_type='" ++ behind))
    with ("log_type", String "="%char (String "'"%char behind)).
  cbv beta iota zeta. change (Etree.valid_name "log_type") with true. cbv iota.
  rewrite Hv. reflexivity.
Qed.


Section LookupFacts.
Context {L : PyLib}.

(** Without a [module] child there is no point-log id to find. *)
Lemma get_point_log_id_needs_module xmldata (log_type : string) :
  Etree.quote_free log_type = true ->
  children_tagged "module" xmldata = [] ->
  get_point_log_id xmldata log_type = Return None.
Proof.
  intros Hq Hm. unfold get_point_log_id, find.
  rewrite (compile_point_log_id_locator log_type Hq).
  unfold Etree.find_steps, Etree.iterfind_steps.
  cbn [fold_left Etree.select flat_map]. rewrite app_nil_r.
  unfold children_tagged in Hm. rewrite Hm. reflexivity.
Qed.

Lemma current_temperature_needs_module me xmldata :
  _domain_objects me = Some xmldata ->
  children_tagged "module" xmldata = [] ->
  get_current_temperature me = Return None.
Proof.
  intros Hd Hm. unfold get_current_temperature, domain_objects. rewrite Hd.
  cbn [rbind].
  rewrite (get_point_log_id_needs_module xmldata "temperature" eq_refl Hm).
  reflexivity.
Qed.

(** For an id without a quote, the measurement is the text of the first
    [period/measurement] under a [logs/point_log] with that id, below
    any child of the snapshot. *)
Lemma get_measurement_from_point_log_steps xmldata (point_log_id : string) :
  Etree.quote_free point_log_id = true ->
  get_measurement_from_point_log xmldata point_log_id =
  Return match Etree.find_steps xmldata
                 [Etree.Star; Etree.Child "logs"; Etree.Child "point_log";
                  Etree.AttrEq "id" point_log_id;
                  Etree.Child "period"; Etree.Child "measurement"] with
         | Some e => Etree.text e
         | None => None
         end.
Proof.
  intros Hq. unfold get_measurement_from_point_log, find.
  rewrite (compile_measurement_locator point_log_id Hq). cbn [rbind].
  destruct (Etree.find_steps _ _); reflexivity.
Qed.

End LookupFacts.

(** ** Sample runs *)

Example compile_preset_locator :
  Etree.compile
    "appliance[type='thermostat']/logs/point_log[type='preset_state']/period/measurement"
  = Some [Etree.Child "appliance"; Etree.ChildTextEq "type" "thermostat";
          Etree.Child "logs"; Etree.Child "point_log";
          Etree.ChildTextEq "type" "preset_state";
          Etree.Child "period"; Etree.Child "measurement"].
Proof. reflexivity. Qed.

(** An id with a quote changes the shape of the path; the fragment does
    not read it. *)
Example compile_quoted_id :
  Etree.compile "*/logs/point_log[@id='4'2']/period/measurement" = None.
Proof. reflexivity. Qed.

Example sample_float_19_5 : Sample.decimal_float "19.5" = Some Sample.f19_5.
Proof. vm_compute. reflexivity. Qed.

Example sample_float_rejects : Sample.decimal_float "19,5" = None.
Proof. vm_compute. reflexivity. Qed.

Example sample_request_empty_body :
  fst (request (L := Sample.lib) "/core/domain_objects" 3
         (Sample.state (Sample.client false None) [GetResponse ""] []))
  = Return None.
Proof. reflexivity. Qed.

Example sample_request_error_code :
  fst (request (L := Sample.lib) "/core/domain_objects" 3
         (Sample.state (Sample.client false None) [GetResponse error_code_0] []))
  = Return None.
Proof. reflexivity. Qed.

Example sample_connect :
  fst (connect 2 (Sample.state (Sample.client false None)
                    [GetTimeout; GetClientError; GetResponse "<error/>"] []))
  = Return true
  /\ fst (connect 2 (Sample.state (Sample.client false None)
                       [GetTimeout; GetClientError; GetTimeout] []))
     = Return false.
Proof. split; reflexivity. Qed.

(** * Further properties *)

(** ** More on the sanitiser *)

Module AmpersandFacts.
Import Sanitize.

Lemma entity_start_not_amp d : is_entity_start d = true -> is_amp d = false.
Proof.
  intros H. destruct (is_amp d) eqn:Hd; [|reflexivity].
  apply SanitizeFacts.is_amp_true in Hd. subst d.
  rewrite SanitizeFacts.amp_not_entity_start in H. discriminate.
Qed.

Lemma legal_fixed (s : string) :
  Ampersands.legal s = true -> escape_illegal_xml_characters s = s.
Proof.
  pattern s. apply SanitizeFacts.string_pair_ind; clear s.
  - reflexivity.
  - intros c H. cbn [Ampersands.legal followed_by_entity_start] in H.
    destruct (is_amp c) eqn:Hc; [discriminate|].
    apply SanitizeFacts.escape_cons_other. exact Hc.
  - intros c d s _ IHd H.
    cbn [Ampersands.legal] in H. apply andb_true_iff in H.
    destruct H as [Hc Hd]. fold Ampersands.legal in Hd.
    assert (Hd' : Ampersands.legal (String d s) = true) by exact Hd.
    destruct (is_amp c) eqn:Ec.
    + apply SanitizeFacts.is_amp_true in Ec. subst c.
      cbn [followed_by_entity_start] in Hc.
      rewrite (SanitizeFacts.escape_amp_entity d s Hc), (IHd Hd'). reflexivity.
    + rewrite (SanitizeFacts.escape_cons_other c (String d s) Ec), (IHd Hd').
      reflexivity.
Qed.

Lemma every_ampersand_head (s : string) :
  followed_by_entity_start s = true ->
  followed_by_entity_start (escape_every_ampersand s) = true.
Proof.
  destruct s as [|d s]; [discriminate|].
  cbn [followed_by_entity_start]. intros Hd.
  cbn [escape_every_ampersand]. rewrite (entity_start_not_amp d Hd).
  cbn [andb followed_by_entity_start]. exact Hd.
Qed.

Lemma every_ampersand_legal (s : string) :
  Ampersands.legal (escape_every_ampersand s) = true.
Proof.
  induction s as [|c s IH]; [reflexivity|].
  cbn [escape_every_ampersand].
  destruct (is_amp c) eqn:Hc; cbn [andb].
  - destruct (followed_by_entity_start s) eqn:Hs; cbn [negb].
    + cbn [Ampersands.legal]. rewrite Hc, (every_ampersand_head s Hs), IH.
      reflexivity.
    + change ("&amp;" ++ escape_every_ampersand s)
        with (String "&" (String "a" (String "m" (String "p"
                (String ";" (escape_every_ampersand s)))))).
      cbn [Ampersands.legal followed_by_entity_start].
      rewrite IH. reflexivity.
  - cbn [Ampersands.legal]. rewrite Hc, IH. reflexivity.
Qed.

End AmpersandFacts.

(** X1: a text in which every ampersand is already followed by a letter
    or [#] comes out of the sanitiser as it went in. *)
Theorem escape_keeps_legal_text (xmldata : string) :
  Ampersands.legal xmldata = true ->
  Sanitize.escape_illegal_xml_characters xmldata = xmldata.
Proof. apply AmpersandFacts.legal_fixed. Qed.

Lemma escape_keeps_legal_text_witness :
  Ampersands.legal "<a href='x?y&amp;z=&#38;'>R&D</a>" = true
  /\ Sanitize.escape_illegal_xml_characters "<a href='x?y&amp;z=&#38;'>R&D</a>"
     = "<a href='x?y&amp;z=&#38;'>R&D</a>".
Proof.
  split; [reflexivity|].
  apply (escape_keeps_legal_text "<a href='x?y&amp;z=&#38;'>R&D</a>").
  reflexivity.
Defined.

(** X2: when no ampersand of the input is last or directly follows
    another one, every ampersand of the sanitised text is followed by a
    letter or [#]. *)
Theorem escape_output_legal (xmldata : string) :
  Sanitize.ampersands_separated xmldata = true ->
  Ampersands.legal (Sanitize.escape_illegal_xml_characters xmldata) = true.
Proof.
  intros H. rewrite (SanitizeFacts.escape_agrees_when_separated xmldata H).
  apply AmpersandFacts.every_ampersand_legal.
Qed.

Lemma escape_output_legal_witness :
  Sanitize.ampersands_separated "A & B &lt; C &1" = true
  /\ Ampersands.legal (Sanitize.escape_illegal_xml_characters "A & B &lt; C &1") = true.
Proof.
  split; [reflexivity|].
  apply (escape_output_legal "A & B &lt; C &1"). reflexivity.
Defined.

(** X3: on such an input, sanitising twice is the same as sanitising
    once. *)
Theorem escape_idempotent_when_separated (xmldata : string) :
  Sanitize.ampersands_separated xmldata = true ->
  Sanitize.escape_illegal_xml_characters
    (Sanitize.escape_illegal_xml_characters xmldata)
  = Sanitize.escape_illegal_xml_characters xmldata.
Proof.
  intros H. apply AmpersandFacts.legal_fixed.
  rewrite (SanitizeFacts.escape_agrees_when_separated xmldata H).
  apply AmpersandFacts.every_ampersand_legal.
Qed.

Lemma escape_idempotent_when_separated_witness :
  Sanitize.ampersands_separated "A & B" = true
  /\ Sanitize.escape_illegal_xml_characters
       (Sanitize.escape_illegal_xml_characters "A & B")
     = Sanitize.escape_illegal_xml_characters "A & B".
Proof.
  split; [reflexivity|].
  apply (escape_idempotent_when_separated "A & B"). reflexivity.
Defined.

(** X4: the sanitiser never drops a character and adds four characters
    per ampersand at most. *)
Theorem escape_length_bounds (xmldata : string) :
  (String.length xmldata
   <= String.length (Sanitize.escape_illegal_xml_characters xmldata)
   <= String.length xmldata + 4 * Ampersands.count xmldata)%nat.
Proof.
  pattern xmldata. apply SanitizeFacts.string_pair_ind; clear xmldata.
  - cbn. lia.
  - intros c. cbn [Sanitize.escape_illegal_xml_characters].
    destruct (Sanitize.is_amp c); cbn [String.length]; lia.
  - intros c d s IHs IHd.
    cbn [Ampersands.count] in *.
    destruct (Sanitize.is_amp c) eqn:Hc.
    + apply SanitizeFacts.is_amp_true in Hc. subst c.
      destruct (Sanitize.is_entity_start d) eqn:Hd.
      * rewrite (SanitizeFacts.escape_amp_entity d s Hd).
        cbn [String.length] in *. lia.
      * rewrite (SanitizeFacts.escape_amp_other d s Hd).
        change ("&amp;" ++ String d (Sanitize.escape_illegal_xml_characters s))
          with (String "&" (String "a" (String "m" (String "p" (String ";"
                  (String d (Sanitize.escape_illegal_xml_characters s))))))).
        cbn [String.length] in *. lia.
    + rewrite (SanitizeFacts.escape_cons_other c (String d s) Hc).
      cbn [String.length] in *. lia.
Qed.

(** X5: sanitising a text in two pieces gives the same as sanitising it
    whole, as long as the first piece does not end with an ampersand. *)
Theorem escape_app (first second : string) :
  Ampersands.ends_with_amp first = false ->
  Sanitize.escape_illegal_xml_characters (first ++ second)
  = Sanitize.escape_illegal_xml_characters first
    ++ Sanitize.escape_illegal_xml_characters second.
Proof.
  pattern first. apply SanitizeFacts.string_pair_ind; clear first.
  - intros _. reflexivity.
  - intros c Hc. cbn [Ampersands.ends_with_amp] in Hc.
    change (String c "" ++ second) with (String c second).
    rewrite (SanitizeFacts.escape_cons_other c second Hc).
    rewrite (SanitizeFacts.escape_cons_other c "" Hc). reflexivity.
  - intros c d s IHs IHd H.
    assert (Hd : Ampersands.ends_with_amp (String d s) = false) by exact H.
    assert (Hs : Ampersands.ends_with_amp s = false).
    { destruct s as [|e s]; [reflexivity | exact Hd]. }
    change (String c (String d s) ++ second) with (String c (String d (s ++ second))).
    destruct (Sanitize.is_amp c) eqn:Hc.
    + apply SanitizeFacts.is_amp_true in Hc. subst c.
      destruct (Sanitize.is_entity_start d) eqn:He.
      * rewrite !(SanitizeFacts.escape_amp_entity d _ He).
        change (String d (s ++ second)) with (String d s ++ second).
        rewrite (IHd Hd). reflexivity.
      * rewrite !(SanitizeFacts.escape_amp_other d _ He).
        rewrite (IHs Hs). reflexivity.
    + rewrite !(SanitizeFacts.escape_cons_other c _ Hc).
      change (String d (s ++ second)) with (String d s ++ second).
      rewrite (IHd Hd). reflexivity.
Qed.

Lemma escape_app_witness :
  Ampersands.ends_with_amp "A & B" = false
  /\ Sanitize.escape_illegal_xml_characters ("A & B" ++ " & C")
     = Sanitize.escape_illegal_xml_characters "A & B"
       ++ Sanitize.escape_illegal_xml_characters " & C".
Proof.
  split; [reflexivity|]. apply (escape_app "A & B" " & C"). reflexivity.
Defined.

(** ** More on the transport *)

Section SettledAtFacts.
Variable retried : attempt -> bool.

Lemma settled_at_0 s url a :
  settled_at retried s url 0 a -> attempt_at s url 0 = a /\ retried a = false.
Proof. intros (_ & Ha & Hr). split; assumption. Qed.

Lemma settled_at_S s url u k a :
  settled_at retried s url (S k) a ->
  retried (attempt_at s url 0) = true
  /\ settled_at retried (snd (websession_get u s)) url k a.
Proof.
  intros (Hlt & Ha & Hr). split; [apply Hlt; lia|].
  split; [|split; [rewrite attempt_at_after_get; exact Ha | exact Hr]].
  intros j Hj. rewrite attempt_at_after_get. apply Hlt. lia.
Qed.

End SettledAtFacts.

Section RequestCount.
Context {L : PyLib}.

Lemma request_count_exhausted command retry : forall s,
  exhausted is_timeout s (_endpoint (self s) ++ command) (budget retry) ->
  gets_between s (snd (request command retry s)) = Z.of_nat (budget retry) + 1.
Proof.
  remember (budget retry) as n eqn:Hn. revert retry Hn.
  induction n as [|n IH]; intros retry Hn s Hex; rewrite request_unfold; cbv zeta.
  - pose proof (Hex 0%nat (Nat.le_refl _)) as H0.
    destruct (attempt_at s (_endpoint (self s) ++ command) 0); try discriminate.
    destruct (retry <? 1) eqn:Hr; [apply gets_between_get|].
    rewrite (budget_step retry Hr) in Hn. discriminate.
  - pose proof (Hex 0%nat (Nat.le_0_l _)) as H0.
    destruct (attempt_at s (_endpoint (self s) ++ command) 0); try discriminate.
    destruct (retry <? 1) eqn:Hr;
      [rewrite (budget_none retry Hr) in Hn; discriminate|].
    rewrite (budget_step retry Hr) in Hn. injection Hn as Hn.
    set (s1 := snd (websession_get (_endpoint (self s) ++ command) s)).
    rewrite (gets_between_trans s s1). unfold s1 at 1. rewrite gets_between_get.
    rewrite (IH (retry - 1) Hn s1); [lia|].
    unfold s1. rewrite self_after_get. apply exhausted_after_get. exact Hex.
Qed.

Lemma request_count_settled command a : forall k retry s,
  (k <= budget retry)%nat ->
  settled_at is_timeout s (_endpoint (self s) ++ command) k a ->
  gets_between s (snd (request command retry s)) = Z.of_nat k + 1.
Proof.
  induction k as [|k IH]; intros retry s Hk Hs; rewrite request_unfold; cbv zeta.
  - destruct (settled_at_0 _ _ _ _ Hs) as [H0 Hr]. rewrite H0.
    destruct a; try discriminate; [apply gets_between_get| |apply gets_between_get].
    destruct (_ || _); apply gets_between_get.
  - destruct (settled_at_S _ _ _ (_endpoint (self s) ++ command) _ _ Hs) as [H0 Hs1].
    destruct (attempt_at s (_endpoint (self s) ++ command) 0); try discriminate.
    destruct (retry <? 1) eqn:Hr.
    { rewrite (budget_none retry Hr) in Hk. lia. }
    set (s1 := snd (websession_get (_endpoint (self s) ++ command) s)) in *.
    rewrite (gets_between_trans s s1). unfold s1 at 1. rewrite gets_between_get.
    rewrite (IH (retry - 1) s1); [lia | | ].
    + rewrite (budget_step retry Hr) in Hk. lia.
    + unfold s1. rewrite self_after_get. exact Hs1.
Qed.

End RequestCount.

(** X6: [request] stops at the first outcome that is not a timeout.
    When its [k]-th GET (counted from 0, within the budget) is the first
    to meet a client error or to be answered, it has issued exactly
    [k + 1] GETs; when every GET of the budget times out it has issued
    [budget + 1]. *)
Theorem request_get_count `{L : PyLib} (command : string) (retry : Z) (s : Sys) :
  let url := _endpoint (self s) ++ command in
  (exhausted is_timeout s url (budget retry) ->
   gets_between s (snd (request command retry s)) = Z.of_nat (budget retry) + 1)
  /\ (forall k a,
        (k <= budget retry)%nat ->
        settled_at is_timeout s url k a ->
        gets_between s (snd (request command retry s)) = Z.of_nat k + 1).
Proof.
  intros url. split.
  - apply request_count_exhausted.
  - intros k a. apply request_count_settled.
Qed.

(** X7: [request] changes nothing of the client (snapshot, timestamp,
    endpoint, flag) and does not read the clock; it appends between one
    and [budget + 1] GETs to the log, all of the one URL. *)
Theorem request_leaves_client_alone
    `{L : PyLib} (command : string) (retry : Z) (s : Sys) :
  let s' := snd (request command retry s) in
  self s' = self s
  /\ clock (env s') = clock (env s)
  /\ ticks (env s') = ticks (env s)
  /\ exists k, (1 <= k <= S (budget retry))%nat
               /\ gets (env s')
                  = List.app (repeat (_endpoint (self s) ++ command) k) (gets (env s)).
Proof.
  pose proof (request_frame command retry s) as H. cbv zeta in *.
  destruct H as (Hs & _ & Hc & Ht & Hk). repeat split; assumption.
Qed.

Section ConnectCount.

Lemma connect_frame retry : forall s,
  let s' := snd (connect retry s) in
  self s' = self s
  /\ clock (env s') = clock (env s)
  /\ ticks (env s') = ticks (env s)
  /\ exists k, (1 <= k <= S (budget retry))%nat
               /\ gets (env s')
                  = List.app (repeat (_endpoint (self s) ++ PLUGWISE_PING_ENDPOINT) k)
                             (gets (env s)).
Proof.
  remember (budget retry) as n eqn:Hn. revert retry Hn.
  assert (Hone : forall s (r : result bool) m,
             let s' :=
               snd (r, snd (websession_get
                              (_endpoint (self s) ++ PLUGWISE_PING_ENDPOINT) s)) in
             self s' = self s
             /\ clock (env s') = clock (env s)
             /\ ticks (env s') = ticks (env s)
             /\ exists k, (1 <= k <= S m)%nat
                  /\ gets (env s')
                     = List.app
                         (repeat (_endpoint (self s) ++ PLUGWISE_PING_ENDPOINT) k)
                         (gets (env s))).
  { intros s r m. cbn. repeat split. exists 1%nat. split; [lia | reflexivity]. }
  induction n as [|n IH]; intros retry Hn s; rewrite connect_unfold; cbv zeta.
  - destruct (attempt_at s (_endpoint (self s) ++ PLUGWISE_PING_ENDPOINT) 0);
      [destruct (retry <? 1) eqn:Hr | destruct (retry <? 1) eqn:Hr
       | destruct (negb _) | ]; try apply Hone;
      rewrite (budget_step retry Hr) in Hn; discriminate.
  - assert (Hrec : (retry <? 1) = false ->
             let s' :=
               snd (connect (retry - 1)
                      (snd (websession_get
                              (_endpoint (self s) ++ PLUGWISE_PING_ENDPOINT) s))) in
             self s' = self s
             /\ clock (env s') = clock (env s)
             /\ ticks (env s') = ticks (env s)
             /\ exists k, (1 <= k <= S (S n))%nat
                  /\ gets (env s')
                     = List.app
                         (repeat (_endpoint (self s) ++ PLUGWISE_PING_ENDPOINT) k)
                         (gets (env s))).
    { intros Hr. rewrite (budget_step retry Hr) in Hn. injection Hn as Hn.
      specialize (IH (retry - 1) Hn
                     (snd (websession_get
                             (_endpoint (self s) ++ PLUGWISE_PING_ENDPOINT) s))).
      cbv zeta in IH. rewrite self_after_get in IH.
      destruct IH as (Hs & Hc & Ht & k & Hk & Hg).
      cbv zeta. repeat split; try assumption.
      exists (S k). split; [lia|]. rewrite Hg. cbn [websession_get snd env gets].
      cbn [repeat]. rewrite repeat_cons, <- app_assoc. reflexivity. }
    destruct (attempt_at s (_endpoint (self s) ++ PLUGWISE_PING_ENDPOINT) 0);
      [destruct (retry <? 1) eqn:Hr | destruct (retry <? 1) eqn:Hr
       | destruct (negb _) | ]; try apply Hone; apply Hrec; reflexivity.
Qed.

Lemma connect_count_settled a : forall k retry s,
  (k <= budget retry)%nat ->
  settled_at is_transport_error s (_endpoint (self s) ++ PLUGWISE_PING_ENDPOINT) k a ->
  gets_between s (snd (connect retry s)) = Z.of_nat k + 1.
Proof.
  induction k as [|k IH]; intros retry s Hk Hs; rewrite connect_unfold; cbv zeta.
  - destruct (settled_at_0 _ _ _ _ Hs) as [H0 Hr]. rewrite H0.
    destruct a; try discriminate; [|apply gets_between_get].
    destruct (negb _); apply gets_between_get.
  - destruct (settled_at_S _ _ _ (_endpoint (self s) ++ PLUGWISE_PING_ENDPOINT) _ _ Hs)
      as [H0 Hs1].
    set (s1 := snd (websession_get (_endpoint (self s) ++ PLUGWISE_PING_ENDPOINT) s))
      in *.
    assert (Hrec : (retry <? 1) = false ->
                   gets_between s (snd (connect (retry - 1) s1))
                   = Z.of_nat (S k) + 1).
    { intros Hr. rewrite (gets_between_trans s s1). unfold s1 at 1.
      rewrite gets_between_get.
      rewrite (IH (retry - 1) s1); [lia | | ].
      + rewrite (budget_step retry Hr) in Hk. lia.
      + unfold s1. rewrite self_after_get. exact Hs1. }
    destruct (attempt_at s (_endpoint (self s) ++ PLUGWISE_PING_ENDPOINT) 0);
      try discriminate;
      (destruct (retry <? 1) eqn:Hr;
       [rewrite (budget_none retry Hr) in Hk; lia | apply Hrec; reflexivity]).
Qed.

End ConnectCount.

(** X8: [connect] changes nothing of the client and does not read the
    clock; it issues between one and [budget + 1] GETs, all of the ping
    URL, and exactly [k + 1] of them when its [k]-th GET (counted from
    0, within the budget) is the first to be answered. *)
Theorem connect_leaves_client_alone (retry : Z) (s : Sys) :
  let s' := snd (connect retry s) in
  let url := _endpoint (self s) ++ PLUGWISE_PING_ENDPOINT in
  self s' = self s
  /\ clock (env s') = clock (env s)
  /\ ticks (env s') = ticks (env s)
  /\ (exists k, (1 <= k <= S (budget retry))%nat
                /\ gets (env s') = List.app (repeat url k) (gets (env s)))
  /\ (forall k body,
        (k <= budget retry)%nat ->
        settled_at is_transport_error s url k (GetResponse body) ->
        gets_between s s' = Z.of_nat k + 1).
Proof.
  intros s' url. destruct (connect_frame retry s) as (Hs & Hc & Ht & Hk).
  repeat split; try assumption.
  intros k body. apply connect_count_settled.
Qed.

(** ** More on the refresh *)

Section RefreshMore.
Context {L : PyLib}.

Lemma request_answer command retry s body :
  settled is_timeout s (_endpoint (self s) ++ command) (budget retry)
          (GetResponse body) ->
  body <> EmptyString -> body <> error_code_0 ->
  fst (request command retry s)
  = rbind (etree_fromstring (Sanitize.escape_illegal_xml_characters body))
          (fun tree => Return (Some tree)).
Proof.
  intros Hs He Hc. rewrite (request_settled command retry _ s Hs).
  rewrite (string_eqb_false _ _ He), (string_eqb_false _ _ Hc). reflexivity.
Qed.

Lemma update_domain_objects_self s :
  match fst (request PLUGWISE_DOMAIN_OBJECTS_ENDPOINT 3 s) with
  | Return r =>
      self (snd (update_domain_objects s))
      = mkPlugwise (_legacy_anna (self s)) (_endpoint (self s))
                   (_throttle_time (self s)) r
  | Raise _ => self (snd (update_domain_objects s)) = self s
  end.
Proof.
  rewrite update_domain_objects_eq.
  pose proof (request_frame PLUGWISE_DOMAIN_OBJECTS_ENDPOINT 3 s) as Hf.
  cbv zeta in Hf. destruct Hf as [Hself _].
  destruct (request PLUGWISE_DOMAIN_OBJECTS_ENDPOINT 3 s) as [[r|e] s'];
    cbn in *; rewrite Hself; reflexivity.
Qed.

Lemma find_all_appliances_state s :
  snd (find_all_appliances s) = snd (update_domain_objects s).
Proof.
  unfold find_all_appliances, bind.
  destruct (update_domain_objects s) as [[r|e] s']; reflexivity.
Qed.

End RefreshMore.

(** X9: when the body that answers the fetch does not parse,
    [update_domain_objects] raises what [Etree.fromstring] raised and
    the client is as before: the snapshot it held stays. *)
Theorem update_domain_objects_parse_error
    `{L : PyLib} (s : Sys) (body : string) (e : exn) :
  settled is_timeout s (_endpoint (self s) ++ PLUGWISE_DOMAIN_OBJECTS_ENDPOINT)
          (budget 3) (GetResponse body) ->
  body <> EmptyString -> body <> error_code_0 ->
  etree_fromstring (Sanitize.escape_illegal_xml_characters body) = Raise e ->
  fst (update_domain_objects s) = Raise e
  /\ self (snd (update_domain_objects s)) = self s.
Proof.
  intros Hs He Hc Hp.
  pose proof (request_answer _ _ _ _ Hs He Hc) as Hr. rewrite Hp in Hr.
  cbn [rbind] in Hr.
  pose proof (update_domain_objects_stores s) as H1.
  pose proof (update_domain_objects_self s) as H2.
  rewrite Hr in H1, H2. split; [exact (proj1 H1) | exact H2].
Qed.

Lemma update_domain_objects_parse_error_witness :
  fst (update_domain_objects (L := Sample.lib) Scenario.unparseable_fetch)
  = Raise ParseError
  /\ self (snd (update_domain_objects (L := Sample.lib) Scenario.unparseable_fetch))
     = self Scenario.unparseable_fetch.
Proof.
  apply (update_domain_objects_parse_error (L := Sample.lib)
           Scenario.unparseable_fetch "<broken" ParseError).
  - exists 0%nat. split; [unfold budget; lia|]. split; [intros j Hj; lia|].
    split; reflexivity.
  - discriminate.
  - discriminate.
  - reflexivity.
Defined.

(** X10: when the body that answers the fetch parses,
    [update_domain_objects] returns the tree and stores it as the
    snapshot; the flag, the endpoint and the throttle timestamp stay. *)
Theorem update_domain_objects_stores_tree
    `{L : PyLib} (s : Sys) (body : string) (tree : Etree.Element) :
  settled is_timeout s (_endpoint (self s) ++ PLUGWISE_DOMAIN_OBJECTS_ENDPOINT)
          (budget 3) (GetResponse body) ->
  body <> EmptyString -> body <> error_code_0 ->
  etree_fromstring (Sanitize.escape_illegal_xml_characters body) = Return tree ->
  fst (update_domain_objects s) = Return (Some tree)
  /\ self (snd (update_domain_objects s))
     = mkPlugwise (_legacy_anna (self s)) (_endpoint (self s))
                  (_throttle_time (self s)) (Some tree).
Proof.
  intros Hs He Hc Hp.
  pose proof (request_answer _ _ _ _ Hs He Hc) as Hr. rewrite Hp in Hr.
  cbn [rbind] in Hr.
  pose proof (update_domain_objects_stores s) as H1.
  pose proof (update_domain_objects_self s) as H2.
  rewrite Hr in H1, H2. split; [exact (proj1 H1) | exact H2].
Qed.

Lemma update_domain_objects_stores_tree_witness :
  fst (update_domain_objects (L := Sample.lib) Scenario.answered_fetch)
  = Return (Some (Sample.node "domain_objects" ∅ []))
  /\ self (snd (update_domain_objects (L := Sample.lib) Scenario.answered_fetch))
     = mkPlugwise false "http://anna:80" None
                  (Some (Sample.node "domain_objects" ∅ [])).
Proof.
  apply (update_domain_objects_stores_tree (L := Sample.lib)
           Scenario.answered_fetch "<domain_objects/>").
  - exists 1%nat. split; [unfold budget; lia|]. split; [|split; reflexivity].
    intros j Hj. replace j with 0%nat by lia. reflexivity.
  - discriminate.
  - discriminate.
  - reflexivity.
Defined.

(** X11: a call of [throttle_update_domain_objects] that is not held
    back records its timestamp before it fetches: whatever the fetch
    returns or raises, the timestamp afterwards is the clock reading
    taken for it, which is the second reading of the call when a
    timestamp was there to compare with. *)
Theorem throttle_stamps_before_fetch `{L : PyLib} (s : Sys) :
  unthrottled s ->
  _throttle_time (self (snd (throttle_update_domain_objects s)))
  = Some match _throttle_time (self s) with
         | None => clock (env s) (ticks (env s))
         | Some _ => clock (env s) (S (ticks (env s)))
         end.
Proof.
  intros Hun. rewrite (throttle_passed_eq s Hun).
  destruct (_throttle_time (self s)) as [last|].
  - destruct (refresh_now_frame (snd (now s))) as (_ & Ht & _). exact Ht.
  - destruct (refresh_now_frame s) as (_ & Ht & _). exact Ht.
Qed.

Lemma throttle_stamps_before_fetch_witness :
  unthrottled (Scenario.refreshed_at_0 [2500000; 2500007])
  /\ fst (throttle_update_domain_objects (L := Sample.lib)
            (Scenario.refreshed_at_0 [2500000; 2500007])) = Return tt
  /\ _domain_objects
       (self (snd (throttle_update_domain_objects (L := Sample.lib)
                     (Scenario.refreshed_at_0 [2500000; 2500007])))) = None
  /\ _throttle_time
       (self (snd (throttle_update_domain_objects (L := Sample.lib)
                     (Scenario.refreshed_at_0 [2500000; 2500007]))))
     = Some 2500007.
Proof.
  assert (Hun : unthrottled (Scenario.refreshed_at_0 [2500000; 2500007]))
    by (vm_compute; discriminate).
  split; [exact Hun|]. split; [reflexivity|]. split; [reflexivity|].
  exact (throttle_stamps_before_fetch (L := Sample.lib) _ Hun).
Defined.

(** X12: polls inside the window change nothing.  When a timestamp [t1]
    is recorded and each of the next [n] clock readings is less than
    two seconds past it, [n] calls of [update_device] in a row leave
    the client and the log of GETs as they were and read the clock [n]
    times. *)
Theorem poll_within_window `{L : PyLib} (n : nat) (s : Sys) (t1 : Z) :
  _throttle_time (self s) = Some t1 ->
  (forall i, (i < n)%nat ->
     clock (env s) (ticks (env s) + i)%nat - t1 < MIN_TIME_BETWEEN_UPDATES) ->
  self (poll n s) = self s
  /\ gets (env (poll n s)) = gets (env s)
  /\ ticks (env (poll n s)) = (ticks (env s) + n)%nat.
Proof.
  revert s. induction n as [|n IH]; intros s Ht Hw.
  - cbn [poll]. repeat split. lia.
  - cbn [poll]. unfold update_device.
    assert (H0 : reading s - t1 < MIN_TIME_BETWEEN_UPDATES).
    { unfold reading. rewrite <- (Nat.add_0_r (ticks (env s))). apply Hw. lia. }
    rewrite (throttle_held s t1 Ht H0). cbn [snd].
    destruct (IH (snd (now s))) as (Hs & Hg & Hk).
    + exact Ht.
    + intros i Hi. cbn [now snd env clock ticks].
      replace (S (ticks (env s)) + i)%nat with (ticks (env s) + S i)%nat by lia.
      apply Hw. lia.
    + rewrite Hs, Hg, Hk. cbn [now snd self env gets ticks].
      repeat split. lia.
Qed.

Lemma poll_within_window_witness :
  _throttle_time (self (Scenario.refreshed_at_0 [500000; 1000000; 1999999])) = Some 0
  /\ self (poll (L := Sample.lib) 3 (Scenario.refreshed_at_0 [500000; 1000000; 1999999]))
     = self (Scenario.refreshed_at_0 [500000; 1000000; 1999999])
  /\ gets (env (poll (L := Sample.lib) 3
                  (Scenario.refreshed_at_0 [500000; 1000000; 1999999]))) = [].
Proof.
  split; [reflexivity|].
  destruct (poll_within_window (L := Sample.lib) 3
              (Scenario.refreshed_at_0 [500000; 1000000; 1999999]) 0 eq_refl)
    as (Hs & Hg & _).
  - intros i Hi. destruct i as [|[|[|i]]]; [vm_compute; reflexivity .. | lia].
  - split; [exact Hs | exact Hg].
Defined.

(** X13: [find_all_appliances] does not go through the throttle: it
    fetches in every state, also right after a refresh, and neither
    reads the clock nor touches the timestamp. *)
Theorem find_all_appliances_ignores_throttle `{L : PyLib} (s : Sys) :
  let s' := snd (find_all_appliances s) in
  fetched s s'
  /\ _throttle_time (self s') = _throttle_time (self s)
  /\ ticks (env s') = ticks (env s).
Proof.
  cbv zeta. rewrite find_all_appliances_state.
  destruct (update_domain_objects_frame s) as (Hf & Ht & _ & _ & Hk).
  repeat split; assumption.
Qed.

(** ** More on the queries *)

Section SelectorFacts.

(** The selectors applied in turn, as in [Etree.iterfind_steps]. *)
#[local] Abbreviation run steps l :=
  (fold_left (fun result s => Etree.select s result) steps l).

Lemma run_cons s steps (l : list Etree.Element) :
  run (s :: steps) l = run steps (Etree.select s l).
Proof. reflexivity. Qed.

Lemma filter_pointwise (p : Etree.Element -> bool) (l : list Etree.Element) :
  List.filter p l = flat_map (fun x => List.filter p [x]) l.
Proof.
  induction l as [|x l IH]; [reflexivity|].
  change (flat_map (fun y => List.filter p [y]) (x :: l))
    with (List.filter p [x] ++ flat_map (fun y => List.filter p [y]) l)%list.
  rewrite <- IH. cbn [List.filter]. destruct (p x); reflexivity.
Qed.

Lemma select_pointwise s (l : list Etree.Element) :
  Etree.select s l = flat_map (fun x => Etree.select s [x]) l.
Proof.
  destruct s; cbn [Etree.select].
  - apply flat_map_ext. intros x. cbn [flat_map]. rewrite app_nil_r. reflexivity.
  - apply flat_map_ext. intros x. cbn [flat_map]. rewrite app_nil_r. reflexivity.
  - apply filter_pointwise.
  - apply filter_pointwise.
Qed.

Lemma run_pointwise steps : forall l : list Etree.Element,
  run steps l = flat_map (fun x => run steps [x]) l.
Proof.
  induction steps as [|s steps IH]; intros l.
  - cbn [fold_left]. induction l as [|x l IHl]; [reflexivity|].
    cbn [flat_map app]. rewrite <- IHl. reflexivity.
  - rewrite run_cons, IH, (select_pointwise s l), flat_map_nested.
    apply flat_map_ext. intros x. rewrite run_cons, <- IH. reflexivity.
Qed.

Lemma select_child_one t x : Etree.select (Etree.Child t) [x] = children_tagged t x.
Proof. cbn [Etree.select flat_map]. apply app_nil_r. Qed.

Lemma select_star_one x : Etree.select Etree.Star [x] = Etree.children x.
Proof. cbn [Etree.select flat_map]. apply app_nil_r. Qed.

Lemma select_child t (l : list Etree.Element) :
  Etree.select (Etree.Child t) l = flat_map (children_tagged t) l.
Proof. reflexivity. Qed.

Lemma select_attr key value (l : list Etree.Element) :
  Etree.select (Etree.AttrEq key value) l = List.filter (attr_is key value) l.
Proof. reflexivity. Qed.

Lemma select_text t value (l : list Etree.Element) :
  Etree.select (Etree.ChildTextEq t value) l = List.filter (child_text_is t value) l.
Proof. reflexivity. Qed.

Lemma iterfind_service_point_logs log_type xmldata :
  Etree.iterfind_steps xmldata
    [Etree.Child "module"; Etree.Child "services"; Etree.Star;
     Etree.AttrEq "log_type" log_type;
     Etree.Child "functionalities"; Etree.Child "point_log"]
  = service_point_logs log_type xmldata.
Proof.
  unfold Etree.iterfind_steps, service_point_logs.
  rewrite run_cons, select_child_one, run_pointwise.
  apply flat_map_ext. intros m.
  rewrite run_cons, select_child_one, run_pointwise.
  apply flat_map_ext. intros services.
  rewrite run_cons, select_star_one, run_cons, select_attr, run_pointwise.
  apply flat_map_ext. intros service.
  rewrite run_cons, select_child_one, run_cons, select_child. reflexivity.
Qed.

Lemma iterfind_logged_measurements point_log_id xmldata :
  Etree.iterfind_steps xmldata
    [Etree.Star; Etree.Child "logs"; Etree.Child "point_log";
     Etree.AttrEq "id" point_log_id;
     Etree.Child "period"; Etree.Child "measurement"]
  = logged_measurements point_log_id xmldata.
Proof.
  unfold Etree.iterfind_steps, logged_measurements.
  rewrite run_cons, select_star_one, run_pointwise.
  apply flat_map_ext. intros appliance.
  rewrite run_cons, select_child_one, run_pointwise.
  apply flat_map_ext. intros logs.
  rewrite run_cons, select_child_one, run_cons, select_attr, run_pointwise.
  apply flat_map_ext. intros point_log.
  rewrite run_cons, select_child_one, run_cons, select_child. reflexivity.
Qed.

Lemma iterfind_preset_measurements xmldata :
  Etree.iterfind_steps xmldata
    [Etree.Child "appliance"; Etree.ChildTextEq "type" "thermostat";
     Etree.Child "logs"; Etree.Child "point_log";
     Etree.ChildTextEq "type" "preset_state";
     Etree.Child "period"; Etree.Child "measurement"]
  = preset_measurements xmldata.
Proof.
  unfold Etree.iterfind_steps, preset_measurements.
  rewrite run_cons, select_child_one, run_cons, select_text.
  unfold children_tagged at 1. rewrite filter_filter, run_pointwise.
  apply flat_map_ext. intros appliance.
  rewrite run_cons, select_child_one, run_pointwise.
  apply flat_map_ext. intros logs.
  rewrite run_cons, select_child_one, run_cons, select_text, run_pointwise.
  apply flat_map_ext. intros point_log.
  rewrite run_cons, select_child_one, run_cons, select_child. reflexivity.
Qed.

End SelectorFacts.

Section LookupCases.
Context {L : PyLib}.

Lemma get_point_log_id_head xmldata (log_type : string) :
  Etree.quote_free log_type = true ->
  get_point_log_id xmldata log_type =
  match head (service_point_logs log_type xmldata) with
  | None => Return None
  | Some point_log =>
      match Etree.attrib point_log !! "id" with
      | Some id => Return (Some id)
      | None => Raise KeyError
      end
  end.
Proof.
  intros Hq. unfold get_point_log_id, find.
  rewrite (compile_point_log_id_locator log_type Hq). cbn [rbind].
  unfold Etree.find_steps. rewrite iterfind_service_point_logs. reflexivity.
Qed.

Lemma get_measurement_head xmldata (point_log_id : string) :
  Etree.quote_free point_log_id = true ->
  get_measurement_from_point_log xmldata point_log_id =
  Return match head (logged_measurements point_log_id xmldata) with
         | Some measurement => Etree.text measurement
         | None => None
         end.
Proof.
  intros Hq. rewrite (get_measurement_from_point_log_steps xmldata _ Hq).
  unfold Etree.find_steps. rewrite iterfind_logged_measurements. reflexivity.
Qed.

End LookupCases.

(** X14: for a log type without a single quote, [get_point_log_id]
    looks at the first point log, in document order, that the services
    of that log type refer to: it returns [None] when there is none,
    returns that point log's [id] attribute when it has one, and raises
    [KeyError] when it has none. *)
Theorem get_point_log_id_first_match
    `{L : PyLib} (xmldata : Etree.Element) (log_type : string) :
  Etree.quote_free log_type = true ->
  get_point_log_id xmldata log_type =
  match head (service_point_logs log_type xmldata) with
  | None => Return None
  | Some point_log =>
      match Etree.attrib point_log !! "id" with
      | Some id => Return (Some id)
      | None => Raise KeyError
      end
  end.
Proof. apply get_point_log_id_head. Qed.

Lemma get_point_log_id_first_match_witness :
  Etree.quote_free "schedule_temperature" = true
  /\ get_point_log_id (L := Sample.lib) Scenario.full_snapshot "schedule_temperature"
     = Return (Some "43").
Proof.
  split; [reflexivity|].
  rewrite (get_point_log_id_first_match (L := Sample.lib) Scenario.full_snapshot
             "schedule_temperature" eq_refl).
  reflexivity.
Defined.

(** X15: for an id without a single quote,
    [get_measurement_from_point_log] never raises: it returns the text
    of the first measurement, in document order, logged under a point
    log with that id, and [None] when there is no such measurement or
    it has no text. *)
Theorem get_measurement_first_match
    `{L : PyLib} (xmldata : Etree.Element) (point_log_id : string) :
  Etree.quote_free point_log_id = true ->
  get_measurement_from_point_log xmldata point_log_id =
  Return match head (logged_measurements point_log_id xmldata) with
         | Some measurement => Etree.text measurement
         | None => None
         end.
Proof. apply get_measurement_head. Qed.

Lemma get_measurement_first_match_witness :
  Etree.quote_free "43" = true
  /\ get_measurement_from_point_log (L := Sample.lib) Scenario.full_snapshot "43"
     = Return (Some "21").
Proof.
  split; [reflexivity|].
  rewrite (get_measurement_first_match (L := Sample.lib) Scenario.full_snapshot
             "43" eq_refl).
  reflexivity.
Defined.

(** X16: without the legacy flag, [get_current_preset] returns the text
    of the first preset measurement of the thermostat appliance, which
    is [None] when the element is empty, and raises [AttributeError]
    when the snapshot holds no such measurement. *)
Theorem current_preset_of_thermostat
    `{L : PyLib} (me : Plugwise) (xmldata : Etree.Element) :
  _legacy_anna me = false ->
  _domain_objects me = Some xmldata ->
  get_current_preset me =
  match head (preset_measurements xmldata) with
  | Some measurement => Return (Etree.text measurement)
  | None => Raise AttributeError
  end.
Proof.
  intros Hl Hd. unfold get_current_preset, domain_objects, find.
  rewrite Hl, Hd. cbv zeta. cbn [rbind].
  assert (Hc : Etree.compile
                 ("appliance[type='thermostat']/logs/point_log[type='"
                  ++ "preset_state" ++ "']/period/measurement")
               = Some [Etree.Child "appliance"; Etree.ChildTextEq "type" "thermostat";
                       Etree.Child "logs"; Etree.Child "point_log";
                       Etree.ChildTextEq "type" "preset_state";
                       Etree.Child "period"; Etree.Child "measurement"])
    by reflexivity.
  rewrite Hc. cbn [rbind]. unfold Etree.find_steps.
  rewrite iterfind_preset_measurements.
  destruct (head (preset_measurements xmldata)); reflexivity.
Qed.

Lemma current_preset_of_thermostat_witness :
  get_current_preset (L := Sample.lib)
    (Sample.client false (Some Scenario.full_snapshot)) = Return (Some "home")
  /\ get_current_preset (L := Sample.lib)
       (Sample.client false (Some Sample.module_snapshot)) = Raise AttributeError.
Proof.
  split.
  - rewrite (current_preset_of_thermostat (L := Sample.lib)
               (Sample.client false (Some Scenario.full_snapshot))
               Scenario.full_snapshot eq_refl eq_refl).
    reflexivity.
  - rewrite (current_preset_of_thermostat (L := Sample.lib)
               (Sample.client false (Some Sample.module_snapshot))
               Sample.module_snapshot eq_refl eq_refl).
    reflexivity.
Defined.

(** X17: a measurement text that [float] does not read.  With a
    non-empty id found and such a text located,
    [get_current_temperature] raises [ValueError];
    [get_schedule_temperature] raises [ValueError] as well, except for
    the empty text, on which it returns [None]. *)
Theorem temperature_text_not_numeric
    `{L : PyLib} (me : Plugwise) (xmldata : Etree.Element) (id text : string) :
  _domain_objects me = Some xmldata ->
  id <> EmptyString ->
  py_float text = None ->
  get_measurement_from_point_log xmldata id = Return (Some text) ->
  (get_point_log_id xmldata "temperature" = Return (Some id) ->
   get_current_temperature me = Raise ValueError)
  /\ (get_point_log_id xmldata "schedule_temperature" = Return (Some id) ->
      get_schedule_temperature me
      = if String.eqb text EmptyString then Return None else Raise ValueError).
Proof.
  intros Hd Hne Hv Hm.
  unfold get_current_temperature, get_schedule_temperature, domain_objects.
  rewrite Hd. cbn [rbind].
  destruct id as [|c id]; [congruence|].
  split; intros ->; cbn [rbind]; rewrite Hm; cbn [rbind].
  - unfold float. rewrite Hv. reflexivity.
  - destruct text as [|d text]; [reflexivity|].
    cbn [truthy String.eqb]. unfold float. rewrite Hv. reflexivity.
Qed.

Lemma temperature_text_not_numeric_witness :
  py_float (PyLib := Sample.lib) "n/a" = None
  /\ get_current_temperature (L := Sample.lib)
       (Sample.client false (Some Scenario.garbled_snapshot)) = Raise ValueError.
Proof.
  split; [reflexivity|].
  apply (proj1 (temperature_text_not_numeric (L := Sample.lib)
                  (Sample.client false (Some Scenario.garbled_snapshot))
                  Scenario.garbled_snapshot "42" "n/a"
                  eq_refl ltac:(discriminate) eq_refl eq_refl)).
  reflexivity.
Defined.

(** X18: the temperature lookups on the structure of the snapshot.
    When the first point log that the services of the log type refer to
    has a non-empty id without a single quote, and the first
    measurement logged under that id has a text that [float] reads as
    [v], the getter of that log type returns [v]. *)
Theorem temperature_of_first_match
    `{L : PyLib} (me : Plugwise) (xmldata : Etree.Element) (log_type : string)
    (point_log measurement : Etree.Element) (id text : string) (v : float_t) :
  _domain_objects me = Some xmldata ->
  head (service_point_logs log_type xmldata) = Some point_log ->
  Etree.attrib point_log !! "id" = Some id ->
  id <> EmptyString ->
  Etree.quote_free id = true ->
  head (logged_measurements id xmldata) = Some measurement ->
  Etree.text measurement = Some text ->
  py_float text = Some v ->
  (log_type = "temperature" -> get_current_temperature me = Return (Some v))
  /\ (log_type = "schedule_temperature" ->
      get_schedule_temperature me = Return (Some v)).
Proof.
  intros Hd Hp Hid Hne Hq Hm Ht Hv.
  assert (Hgm : get_measurement_from_point_log xmldata id = Return (Some text)).
  { rewrite (get_measurement_head xmldata id Hq), Hm, Ht. reflexivity. }
  assert (Hgp : Etree.quote_free log_type = true ->
                get_point_log_id xmldata log_type = Return (Some id)).
  { intros Hl. rewrite (get_point_log_id_head xmldata log_type Hl), Hp, Hid.
    reflexivity. }
  unfold get_current_temperature, get_schedule_temperature, domain_objects.
  rewrite Hd. cbn [rbind].
  destruct id as [|c id]; [congruence|].
  split; intros ->; rewrite (Hgp eq_refl); cbn [rbind]; rewrite Hgm; cbn [rbind].
  - unfold float. rewrite Hv. reflexivity.
  - destruct text as [|d text]; [rewrite py_float_empty in Hv; discriminate|].
    cbn [truthy]. unfold float. rewrite Hv. reflexivity.
Qed.

Lemma temperature_of_first_match_witness :
  get_schedule_temperature (L := Sample.lib)
    (Sample.client false (Some Scenario.full_snapshot))
  = Return (Some (S754_finite false 5910974510923776 (-48))).
Proof.
  apply (proj2 (temperature_of_first_match (L := Sample.lib)
                  (Sample.client false (Some Scenario.full_snapshot))
                  Scenario.full_snapshot "schedule_temperature"
                  (Sample.node "point_log" {[ "id" := "43" ]} [])
                  (Sample.leaf "measurement" "21") "43" "21"
                  (S754_finite false 5910974510923776 (-48))
                  eq_refl eq_refl eq_refl ltac:(discriminate) eq_refl
                  eq_refl eq_refl ltac:(vm_compute; reflexivity))).
  reflexivity.
Defined.

(** X19: after a fetch that returned [None] the client holds no
    snapshot, and each of the three getters raises [AttributeError]. *)
Theorem getters_after_empty_fetch `{L : PyLib} (s : Sys) :
  fst (request PLUGWISE_DOMAIN_OBJECTS_ENDPOINT 3 s) = Return None ->
  let me := self (snd (update_domain_objects s)) in
  get_current_preset me = Raise AttributeError
  /\ get_current_temperature me = Raise AttributeError
  /\ get_schedule_temperature me = Raise AttributeError.
Proof.
  intros Hr me.
  assert (Hd : _domain_objects me = None).
  { pose proof (update_domain_objects_stores s) as H. rewrite Hr in H.
    exact (proj2 H). }
  unfold get_current_preset, get_current_temperature, get_schedule_temperature,
    domain_objects.
  rewrite Hd. cbv zeta. destruct (_legacy_anna me); repeat split; reflexivity.
Qed.

Lemma getters_after_empty_fetch_witness :
  fst (request (L := Sample.lib) PLUGWISE_DOMAIN_OBJECTS_ENDPOINT 3 Sample.failing_fetch)
  = Return None
  /\ get_current_temperature (L := Sample.lib)
       (self (snd (update_domain_objects (L := Sample.lib) Sample.failing_fetch)))
     = Raise AttributeError.
Proof.
  split; [reflexivity|].
  exact (proj1 (proj2 (getters_after_empty_fetch (L := Sample.lib)
                         Sample.failing_fetch eq_refl))).
Defined.

Lemma string_append_assoc (a b c : string) : (a ++ b) ++ c = a ++ (b ++ c).
Proof.
  induction a as [|x a IH]; [reflexivity|].
  change (String x a ++ b) with (String x (a ++ b)).
  change (String x (a ++ b) ++ c) with (String x ((a ++ b) ++ c)).
  rewrite IH. reflexivity.
Qed.

(** X20: a newly constructed client.  Before any refresh each getter
    raises [AttributeError]; its first [update_device] is never held
    back: it fetches from [http://host:port/core/domain_objects] and
    records a timestamp. *)
Theorem fresh_client
    `{L : PyLib} (host : string) (port : Z) (legacy_anna : bool) (w : World) :
  let me := init host port legacy_anna in
  let s' := snd (update_device (mkSys me w)) in
  get_current_preset me = Raise AttributeError
  /\ get_current_temperature me = Raise AttributeError
  /\ get_schedule_temperature me = Raise AttributeError
  /\ (exists k, (1 <= k <= 4)%nat
                /\ gets (env s')
                   = List.app
                       (repeat ("http://" ++ host ++ ":" ++ str_of_int port
                                ++ "/core/domain_objects") k)
                       (gets w))
  /\ _throttle_time (self s') = Some (clock w (ticks w)).
Proof.
  intros me s'.
  assert (Hun : unthrottled (mkSys me w)) by exact I.
  split; [destruct legacy_anna; reflexivity|].
  split; [reflexivity|]. split; [reflexivity|].
  assert (Hs : s' = snd (refresh_now (mkSys me w))).
  { unfold s', update_device. rewrite (throttle_passed_eq _ Hun). reflexivity. }
  rewrite Hs.
  destruct (refresh_now_frame (mkSys me w)) as ((k & Hk & Hg) & Ht & _).
  split; [|exact Ht].
  exists k. split; [exact Hk|]. rewrite Hg. cbn [self env].
  f_equal. f_equal. unfold me, init, PLUGWISE_DOMAIN_OBJECTS_ENDPOINT.
  cbn [_endpoint]. rewrite !string_append_assoc. reflexivity.
Qed.

(** ** The platform setup *)

Example str_of_port_80 : str_of_int 80 = "80".
Proof. reflexivity. Qed.

Section SetupFacts.
Context {L : PyLib}.

(** The steps of [async_setup_platform], one after the other. *)
Lemma async_setup_platform_eq host name s :
  async_setup_platform host name s =
  match connect 2 (mkSys (init host 80 false) (env s)) with
  | (Raise e, s1) => (Raise e, s1)
  | (Return false, s1) => (Return [], s1)
  | (Return true, s1) =>
      match update_domain_objects s1 with
      | (Raise e, s2) => (Raise e, s2)
      | (Return _, s2) =>
          match get_current_preset (self s2) with
          | Raise e => (Raise e, s2)
          | Return _ =>
              match get_current_temperature (self s2) with
              | Raise e => (Raise e, s2)
              | Return _ =>
                  match get_schedule_temperature (self s2) with
                  | Raise e => (Raise e, s2)
                  | Return _ => (Return [mkPlugwiseAnna name], s2)
                  end
              end
          end
      end
  end.
Proof.
  unfold async_setup_platform, bind, new_client, find_all_appliances, bind,
    get_self, lift, ret.
  cbn [fst snd].
  destruct (connect 2 _) as [[[|]|e] s1]; cbn [negb]; try reflexivity.
  destruct (update_domain_objects s1) as [[r|e] s2]; reflexivity.
Qed.

End SetupFacts.

(** X21: when [connect] reports failure, [async_setup_platform] adds no
    entity and does nothing more: the state it leaves is the one that
    [connect] left, so the domain objects are not fetched. *)
Theorem setup_without_connection `{L : PyLib} (host name : string) (s : Sys) :
  fst (connect 2 (mkSys (init host 80 false) (env s))) = Return false ->
  fst (async_setup_platform host name s) = Return []
  /\ snd (async_setup_platform host name s)
     = snd (connect 2 (mkSys (init host 80 false) (env s))).
Proof.
  intros H. rewrite async_setup_platform_eq.
  destruct (connect 2 _) as [[[|]|e] s1]; cbn [fst] in H; try discriminate.
  split; reflexivity.
Qed.

Lemma setup_without_connection_witness :
  fst (connect 2 (mkSys (init "anna" 80 false)
                        (env (Scenario.before_setup [GetResponse "pong"]))))
  = Return false
  /\ fst (async_setup_platform (L := Sample.lib) "anna" "Anna"
            (Scenario.before_setup [GetResponse "pong"])) = Return []
  /\ gets (env (snd (async_setup_platform (L := Sample.lib) "anna" "Anna"
                       (Scenario.before_setup [GetResponse "pong"]))))
     = ["http://anna:80/ping"].
Proof.
  split; [reflexivity|].
  destruct (setup_without_connection (L := Sample.lib) "anna" "Anna"
              (Scenario.before_setup [GetResponse "pong"]) eq_refl) as [Hr Hs].
  split; [exact Hr|]. rewrite Hs. reflexivity.
Defined.

(** X22: when the device answers the ping but the fetch of the domain
    objects returns [None], [async_setup_platform] raises
    [AttributeError] (from [get_current_preset] on the missing
    snapshot) and adds no entity. *)
Theorem setup_without_data `{L : PyLib} (host name : string) (s : Sys) :
  fst (connect 2 (mkSys (init host 80 false) (env s))) = Return true ->
  fst (request PLUGWISE_DOMAIN_OBJECTS_ENDPOINT 3
         (snd (connect 2 (mkSys (init host 80 false) (env s))))) = Return None ->
  fst (async_setup_platform host name s) = Raise AttributeError.
Proof.
  intros Hc Hr. rewrite async_setup_platform_eq.
  pose proof (connect_frame 2 (mkSys (init host 80 false) (env s))) as Hf.
  cbv zeta in Hf. destruct Hf as (Hself & _).
  destruct (connect 2 _) as [[[|]|e] s1]; cbn [fst snd] in *; try discriminate.
  pose proof (update_domain_objects_stores s1) as H1.
  pose proof (update_domain_objects_self s1) as H2.
  rewrite Hr in H1, H2. destruct H1 as [H1 _].
  destruct (update_domain_objects s1) as [[r|e] s2]; cbn [fst snd] in *;
    try discriminate.
  rewrite H2, Hself. reflexivity.
Qed.

Lemma setup_without_data_witness :
  fst (async_setup_platform (L := Sample.lib) "anna" "Anna"
         (Scenario.before_setup [GetResponse "<error/>"; GetResponse ""]))
  = Raise AttributeError.
Proof.
  apply (setup_without_data (L := Sample.lib) "anna" "Anna"
           (Scenario.before_setup [GetResponse "<error/>"; GetResponse ""]));
    reflexivity.
Defined.

(** X23: when the device answers the ping, the fetch returns a tree and
    the three getters return on it, [async_setup_platform] adds exactly
    one entity, with the configured name; the client holds the tree,
    and no throttle timestamp: the refresh of the setup does not open
    a throttle window. *)
Theorem setup_with_data
    `{L : PyLib} (host name : string) (s : Sys) (xmldata : Etree.Element)
    (preset : option string) (current schedule : option float_t) :
  let me := mkPlugwise false ("http://" ++ host ++ ":" ++ str_of_int 80) None
                       (Some xmldata) in
  fst (connect 2 (mkSys (init host 80 false) (env s))) = Return true ->
  fst (request PLUGWISE_DOMAIN_OBJECTS_ENDPOINT 3
         (snd (connect 2 (mkSys (init host 80 false) (env s)))))
  = Return (Some xmldata) ->
  get_current_preset me = Return preset ->
  get_current_temperature me = Return current ->
  get_schedule_temperature me = Return schedule ->
  fst (async_setup_platform host name s) = Return [mkPlugwiseAnna name]
  /\ self (snd (async_setup_platform host name s)) = me.
Proof.
  intros me Hc Hr Hp Ht Hs. rewrite async_setup_platform_eq.
  pose proof (connect_frame 2 (mkSys (init host 80 false) (env s))) as Hf.
  cbv zeta in Hf. destruct Hf as (Hself & _).
  destruct (connect 2 _) as [[[|]|e] s1]; cbn [fst snd] in *; try discriminate.
  pose proof (update_domain_objects_stores s1) as H1.
  pose proof (update_domain_objects_self s1) as H2.
  rewrite Hr in H1, H2. destruct H1 as [H1 _].
  destruct (update_domain_objects s1) as [[r|e] s2]; cbn [fst snd] in *;
    try discriminate.
  assert (Hme : self s2 = me) by (rewrite H2, Hself; reflexivity).
  rewrite Hme, Hp, Ht, Hs. split; [reflexivity | exact Hme].
Qed.

Lemma setup_with_data_witness :
  fst (async_setup_platform (L := Scenario.lib) "anna" "Anna"
         (Scenario.before_setup
            [GetResponse "<error/>"; GetResponse Scenario.full_document]))
  = Return [mkPlugwiseAnna "Anna"]
  /\ self (snd (async_setup_platform (L := Scenario.lib) "anna" "Anna"
                  (Scenario.before_setup
                     [GetResponse "<error/>"; GetResponse Scenario.full_document])))
     = mkPlugwise false "http://anna:80" None (Some Scenario.full_snapshot).
Proof.
  apply (setup_with_data (L := Scenario.lib) "anna" "Anna"
           (Scenario.before_setup
              [GetResponse "<error/>"; GetResponse Scenario.full_document])
           Scenario.full_snapshot (Some "home")
           (Some Sample.f19_5)
           (Some (S754_finite false 5910974510923776 (-48))));
    vm_compute; reflexivity.
Defined.
